(** * FastPython: the decorator-insertion transformer and its driver

    A shallow embedding of [FastPython.py].  The program reads a Python
    file, rewrites it with one of six text transformers and writes the
    result next to the input.  Two of the transformers ([optimize_numba],
    [optimize_cache]) go through the syntax tree: [ast.parse], a
    [NodeTransformer] that adds a decorator to every [FunctionDef], and
    [ast.unparse].  The other four are string concatenations.

    [ast.parse], [ast.unparse], [str.strip], [os.path] and the file system
    belong to the Python runtime, not to the program: the embedding takes
    them as section variables.  A printer for the modelled fragment of the
    syntax tree and a small runtime are given at the end of the definitions
    so that every statement can be evaluated on concrete inputs. *)

From Stdlib Require Import List String Ascii Bool NArith Lia.
From Stdlib Require Import DecimalString.
Import ListNotations.

Set Warnings "-register-all".

Local Open Scope list_scope.
Local Open Scope string_scope.

(** ** Strings *)

Module Str.

(** The line feed, written [\n] in the source. *)
Definition nl : string := String (ascii_of_nat 10) EmptyString.

(** Python's [sub in s] on strings. *)
Fixpoint contains (sub s : string) : bool :=
  if String.prefix sub s then true
  else match s with
       | EmptyString => false
       | String _ rest => contains sub rest
       end.

(** [sep.join(parts)]. *)
Fixpoint join (sep : string) (parts : list string) : string :=
  match parts with
  | [] => EmptyString
  | [p] => p
  | p :: rest => p ++ sep ++ join sep rest
  end.

(** [s.split("\n")]: the lines of a text. *)
Fixpoint lines_from (cur : string -> string) (s : string) : list string :=
  match s with
  | EmptyString => [cur EmptyString]
  | String c rest =>
      if Ascii.eqb c (ascii_of_nat 10)
      then cur EmptyString :: lines_from (fun x => x) rest
      else lines_from (fun x => cur (String c x)) rest
  end.

Definition lines (s : string) : list string := lines_from (fun x => x) s.

(** [len([l for l in ls if l == x])]. *)
Definition count_line (x : string) (ls : list string) : nat :=
  List.length (List.filter (String.eqb x) ls).

(** The index of the first line equal to [x], when there is one. *)
Fixpoint index_of (x : string) (ls : list string) : option nat :=
  match ls with
  | [] => None
  | l :: rest =>
      if String.eqb x l then Some 0
      else option_map S (index_of x rest)
  end.

Fixpoint concat (parts : list string) : string :=
  match parts with
  | [] => EmptyString
  | p :: rest => p ++ concat rest
  end.

Fixpoint replicate (n : nat) (s : string) : string :=
  match n with
  | O => EmptyString
  | S k => s ++ replicate k s
  end.

(** ASCII white space as [str.isspace] sees it. *)
Definition is_space (c : ascii) : bool :=
  let n := nat_of_ascii c in
  (Nat.leb 9 n && Nat.leb n 13) || (Nat.leb 28 n && Nat.leb n 32).

Fixpoint lstrip (s : string) : string :=
  match s with
  | EmptyString => EmptyString
  | String c rest => if is_space c then lstrip rest else s
  end.

Fixpoint rstrip (s : string) : string :=
  match s with
  | EmptyString => EmptyString
  | String c rest =>
      match rstrip rest with
      | EmptyString => if is_space c then EmptyString else String c EmptyString
      | r => String c r
      end
  end.

(** [s.strip()] restricted to ASCII white space. *)
Definition strip (s : string) : string := rstrip (lstrip s).

End Str.

(** ** The syntax tree

    The fragment of Python's [ast] that the transformer can tell apart.
    Function definitions are statements, so the visitor only ever reaches
    them through the statement lists of compound statements; expressions
    matter only where a decorator is inspected or printed. *)

Module Ast.

Inductive constant : Type :=
  | CNone
  | CBool (b : bool)
  | CInt (n : N).

Inductive expr : Type :=
  | Name (id : string)
  | Constant (value : constant)
  | Attribute (value : expr) (attr : string)
  | Call (func : expr) (args : list expr) (keywords : list (string * expr)).

(** [alias(name, asname)] of an import. *)
Definition alias : Type := (string * option string)%type.

Inductive stmt : Type :=
  | FunctionDef (name : string) (args : list string) (body : list stmt)
                (decorator_list : list expr)
  | AsyncFunctionDef (name : string) (args : list string) (body : list stmt)
                     (decorator_list : list expr)
  | ClassDef (name : string) (bases : list expr) (body : list stmt)
             (decorator_list : list expr)
  | Return (value : option expr)
  | Expr (value : expr)
  | Pass
  | Import (names : list alias)
  | ImportFrom (module : string) (names : list alias)
  | If (test : expr) (body orelse : list stmt)
  | While (test : expr) (body orelse : list stmt)
  | For (target iter : expr) (body orelse : list stmt)
  | Try (body : list stmt) (handlers : list excepthandler)
        (orelse finalbody : list stmt)
with excepthandler : Type :=
  | ExceptHandler (type : option expr) (name : option string)
                  (body : list stmt).

(** [Module(body)]. *)
Definition module : Type := list stmt.

(** Induction over statements that reaches into every statement list. *)
Section StmtInd.
Variable P : stmt -> Prop.
Variable Q : excepthandler -> Prop.

Hypothesis HFunctionDef : forall n a b d,
    Forall P b -> P (FunctionDef n a b d).
Hypothesis HAsyncFunctionDef : forall n a b d,
    Forall P b -> P (AsyncFunctionDef n a b d).
Hypothesis HClassDef : forall n bs b d,
    Forall P b -> P (ClassDef n bs b d).
Hypothesis HReturn : forall v, P (Return v).
Hypothesis HExpr : forall v, P (Expr v).
Hypothesis HPass : P Pass.
Hypothesis HImport : forall ns, P (Import ns).
Hypothesis HImportFrom : forall m ns, P (ImportFrom m ns).
Hypothesis HIf : forall t b o,
    Forall P b -> Forall P o -> P (If t b o).
Hypothesis HWhile : forall t b o,
    Forall P b -> Forall P o -> P (While t b o).
Hypothesis HFor : forall t i b o,
    Forall P b -> Forall P o -> P (For t i b o).
Hypothesis HTry : forall b hs o f,
    Forall P b -> Forall Q hs -> Forall P o -> Forall P f ->
    P (Try b hs o f).
Hypothesis HExceptHandler : forall t n b,
    Forall P b -> Q (ExceptHandler t n b).

Fixpoint stmt_nested_ind (s : stmt) : P s :=
  let all :=
    fix all (l : list stmt) : Forall P l :=
      match l with
      | [] => Forall_nil P
      | x :: r => Forall_cons x (stmt_nested_ind x) (all r)
      end in
  match s with
  | FunctionDef n a b d => HFunctionDef n a b d (all b)
  | AsyncFunctionDef n a b d => HAsyncFunctionDef n a b d (all b)
  | ClassDef n bs b d => HClassDef n bs b d (all b)
  | Return v => HReturn v
  | Expr v => HExpr v
  | Pass => HPass
  | Import ns => HImport ns
  | ImportFrom m ns => HImportFrom m ns
  | If t b o => HIf t b o (all b) (all o)
  | While t b o => HWhile t b o (all b) (all o)
  | For t i b o => HFor t i b o (all b) (all o)
  | Try b hs o f =>
      HTry b hs o f (all b)
        ((fix allh (l : list excepthandler) : Forall Q l :=
            match l with
            | [] => Forall_nil Q
            | h :: r => Forall_cons h (handler_nested_ind h) (allh r)
            end) hs)
        (all o) (all f)
  end
with handler_nested_ind (h : excepthandler) : Q h :=
  match h with
  | ExceptHandler t n b =>
      HExceptHandler t n b
        ((fix all (l : list stmt) : Forall P l :=
            match l with
            | [] => Forall_nil P
            | x :: r => Forall_cons x (stmt_nested_ind x) (all r)
            end) b)
  end.
End StmtInd.

(** The statements directly below a node, in field order: what
    [ast.iter_child_nodes] yields, restricted to statements (through the
    [body] of each handler for [Try]). *)
Definition handler_body (h : excepthandler) : list stmt :=
  match h with ExceptHandler _ _ b => b end.

Definition children (s : stmt) : list stmt :=
  match s with
  | FunctionDef _ _ b _ | AsyncFunctionDef _ _ b _ | ClassDef _ _ b _ => b
  | If _ b o | While _ b o | For _ _ b o => (b ++ o)%list
  | Try b hs o f =>
      (b ++ List.concat (List.map handler_body hs) ++ o ++ f)%list
  | _ => []
  end.

(** The statement reached from a statement list by a path of child
    indices; the empty path reaches nothing. *)
Fixpoint node_at (p : list nat) (l : list stmt) : option stmt :=
  match p with
  | [] => None
  | i :: q =>
      match nth_error l i with
      | None => None
      | Some s =>
          match q with
          | [] => Some s
          | _ => node_at q (children s)
          end
      end
  end.

(** Nesting depth of statement lists. *)
Fixpoint depth (s : stmt) : nat :=
  let deep := fix deep (l : list stmt) : nat :=
                match l with
                | [] => 0
                | x :: r => Nat.max (depth x) (deep r)
                end in
  match s with
  | FunctionDef _ _ b _ | AsyncFunctionDef _ _ b _ | ClassDef _ _ b _ =>
      S (deep b)
  | If _ b o | While _ b o | For _ _ b o => S (Nat.max (deep b) (deep o))
  | Try b hs o f =>
      S (Nat.max (deep b)
           (Nat.max
              ((fix deeph (l : list excepthandler) : nat :=
                  match l with
                  | [] => 0
                  | ExceptHandler _ _ hb :: r =>
                      Nat.max (S (deep hb)) (deeph r)
                  end) hs)
              (Nat.max (deep o) (deep f))))
  | _ => 0
  end.

Definition module_depth (t : module) : nat :=
  List.fold_right (fun s acc => Nat.max (depth s) acc) 0 t.

End Ast.

Import Ast.

(** ** Outcomes of calls into the runtime

    A call either returns or raises an [Exception]; [e] is the text that
    [print] shows for the exception. *)

Inductive result (A : Type) : Type :=
  | Ok (a : A)
  | Raised (e : string).

Arguments Ok {A} a.
Arguments Raised {A} e.

(** ** The decorator-insertion transformer (lines 54-85) *)

Section Transformer.

(** [ast.parse] and [ast_unparse] (bound at lines 43-51). *)
Variable ast_parse : string -> result module.
Variable ast_unparse : module -> result string.

(** [isinstance(dec, ast.Name) and dec.id == decorator_name]. *)
Definition is_bare_name (decorator_name : string) (dec : expr) : bool :=
  match dec with
  | Name id => String.eqb id decorator_name
  | _ => false
  end.

(** [has_decorator = any(... for dec in node.decorator_list)]. *)
Definition has_decorator (decorator_name : string)
           (decorator_list : list expr) : bool :=
  existsb (is_bare_name decorator_name) decorator_list.

(** The decorator list after lines 72-74:
    [node.decorator_list.insert(0, new_decorator)] when the decorator is
    not there yet. *)
Definition insert_decorator (decorator_name : string)
           (decorator_list : list expr) : list expr :=
  if has_decorator decorator_name decorator_list
  then decorator_list
  else Name decorator_name :: decorator_list.

(** [DecoratorAdder.visit] on one statement: [visit_FunctionDef] on a
    [FunctionDef], [generic_visit] on every other node.  [generic_visit]
    replaces each child by the result of visiting it, and every visit
    returns a node, so each statement list is mapped. *)
Fixpoint visit (decorator_name : string) (node : stmt) : stmt :=
  match node with
  | FunctionDef n a b d =>
      FunctionDef n a (List.map (visit decorator_name) b)
                  (insert_decorator decorator_name d)
  | AsyncFunctionDef n a b d =>
      AsyncFunctionDef n a (List.map (visit decorator_name) b) d
  | ClassDef n bs b d =>
      ClassDef n bs (List.map (visit decorator_name) b) d
  | Return v => Return v
  | Expr v => Expr v
  | Pass => Pass
  | Import ns => Import ns
  | ImportFrom m ns => ImportFrom m ns
  | If t b o =>
      If t (List.map (visit decorator_name) b)
           (List.map (visit decorator_name) o)
  | While t b o =>
      While t (List.map (visit decorator_name) b)
              (List.map (visit decorator_name) o)
  | For t i b o =>
      For t i (List.map (visit decorator_name) b)
              (List.map (visit decorator_name) o)
  | Try b hs o f =>
      Try (List.map (visit decorator_name) b)
          (List.map (visit_handler decorator_name) hs)
          (List.map (visit decorator_name) o)
          (List.map (visit decorator_name) f)
  end
with visit_handler (decorator_name : string) (h : excepthandler)
     : excepthandler :=
  match h with
  | ExceptHandler t n b =>
      ExceptHandler t n (List.map (visit decorator_name) b)
  end.

(** [DecoratorAdder().visit(tree)] on the [Module] node. *)
Definition DecoratorAdder (decorator_name : string) (tree : module)
  : module :=
  List.map (visit decorator_name) tree.

(** [add_decorator_to_functions]: the returned text and the lines it
    prints.  The two [try] blocks of the source are the two matches.  The
    walk of lines 78-79 stands outside both: here it is the total
    function [DecoratorAdder], so the definition describes the calls in
    which the walk returns, and says nothing of a tree so deep that the
    walk exhausts the interpreter's stack. *)
Definition add_decorator_to_functions (code decorator_name : string)
  : string * list string :=
  match ast_parse code with
  | Raised e => (code, ["Error parsing AST: " ++ e])
  | Ok tree =>
      let new_tree := DecoratorAdder decorator_name tree in
      match ast_unparse new_tree with
      | Raised e =>
          (code, ["Error generating optimized code from AST: " ++ e])
      | Ok optimized_code => (optimized_code, [])
      end
  end.

(** [ensure_import] (lines 88-94). *)
Definition ensure_import (code import_line : string) : string :=
  if negb (Str.contains import_line code)
  then import_line ++ Str.nl ++ code
  else code.

(** [optimize_multiprocessing] (lines 97-119). *)
Definition sample_main : string :=
  "def main():" ++ Str.nl ++
  "    # Main function of the program" ++ Str.nl ++
  "    pass" ++ Str.nl ++ Str.nl ++
  "if __name__ == '__main__':" ++ Str.nl ++
  "    import multiprocessing" ++ Str.nl ++
  "    p = multiprocessing.Process(target=main)" ++ Str.nl ++
  "    p.start()" ++ Str.nl ++
  "    p.join()" ++ Str.nl ++ Str.nl.

Definition optimize_multiprocessing (code : string) : string :=
  let optimized := "# [OPTIMIZATION: Multiprocessing]" ++ Str.nl ++ code in
  if negb (Str.contains "if __name__" code)
  then sample_main ++ optimized
  else "# Note: Please ensure that the multiprocessing block in __main__ is correct."
       ++ Str.nl ++ optimized.

(** [optimize_translation] (lines 122-130). *)
Definition optimize_translation (code : string) : string :=
  ("# [OPTIMIZATION: Translated to a C/C++ version using pybind11]"
     ++ Str.nl ++ code)
  ++ (Str.nl ++
      "# Note: For an actual translation, you need to manually configure tools such as Cython or pybind11."
      ++ Str.nl).

(** [optimize_numba] (lines 133-140). *)
Definition optimize_numba (code : string) : string * list string :=
  let code := ensure_import code "from numba import njit" in
  let (optimized, printed) := add_decorator_to_functions code "njit" in
  ("# [OPTIMIZATION: Numba JIT applied]" ++ Str.nl ++ optimized, printed).

(** [optimize_cython] (lines 143-151). *)
Definition optimize_cython (code : string) : string :=
  ("# [OPTIMIZATION: Prepared for Cython]" ++ Str.nl ++
   "# cython: language_level=3" ++ Str.nl ++ code)
  ++ (Str.nl ++
      "# Note: To compile with Cython, change the file extension to .pyx and apply further configurations."
      ++ Str.nl).

(** [optimize_cache] (lines 154-161). *)
Definition optimize_cache (code : string) : string * list string :=
  let code := ensure_import code "from functools import lru_cache" in
  let (optimized, printed) :=
    add_decorator_to_functions code "lru_cache" in
  ("# [OPTIMIZATION: Caching with lru_cache applied]" ++ Str.nl
     ++ optimized, printed).

(** [optimize_vectorize] (lines 164-172). *)
Definition optimize_vectorize (code : string) : string :=
  let optimized :=
    "# [OPTIMIZATION: Vectorized operations with NumPy]" ++ Str.nl in
  let optimized := ensure_import optimized "import numpy as np" in
  let optimized := optimized ++ (Str.nl ++ code) in
  optimized ++
    (Str.nl ++
     "# Note: It is recommended to convert loops into numpy operations for better performance."
     ++ Str.nl).

(** The [if]/[elif] chain of [main] (lines 233-247): the transformed
    text and what the transformer printed, or [None] where the chain
    falls to its [else]. *)
Definition apply_method (method_choice code : string)
  : option (string * list string) :=
  if String.eqb method_choice "1" then
    Some (optimize_multiprocessing code, [])
  else if String.eqb method_choice "2" then
    Some (optimize_translation code, [])
  else if String.eqb method_choice "3" then
    Some (optimize_numba code)
  else if String.eqb method_choice "4" then
    Some (optimize_cython code, [])
  else if String.eqb method_choice "5" then
    Some (optimize_cache code)
  else if String.eqb method_choice "6" then
    Some (optimize_vectorize code, [])
  else None.

End Transformer.

(** ** A printer for the fragment

    [ast.unparse] of Python 3.9 and later on the modelled fragment
    ([ast._Unparser]): [fill] starts a line at the current indentation,
    a definition is preceded by a blank line, [elif] chains are folded,
    and nothing is written before the first line. *)

Module Unparse.

Definition fill (indent : nat) (text : string) : string :=
  Str.nl ++ Str.replicate indent "    " ++ text.

Definition decimal (n : N) : string :=
  NilEmpty.string_of_uint (N.to_uint n).

Definition constant_text (c : constant) : string :=
  match c with
  | CNone => "None"
  | CBool true => "True"
  | CBool false => "False"
  | CInt n => decimal n
  end.

Fixpoint expr_text (e : expr) : string :=
  match e with
  | Name id => id
  | Constant c => constant_text c
  | Attribute v a =>
      expr_text v
      ++ match v with Constant (CInt _) => " " | _ => "" end
      ++ "." ++ a
  | Call f args kws =>
      expr_text f ++ "("
      ++ Str.join ", "
           (List.app
              (List.map expr_text args)
              (List.map (fun kw => match kw with
                                   | (k, v) => k ++ "=" ++ expr_text v
                                   end) kws))
      ++ ")"
  end.

Definition alias_text (a : alias) : string :=
  match a with
  | (n, None) => n
  | (n, Some asname) => n ++ " as " ++ asname
  end.

Definition decorators_text (indent : nat) (ds : list expr) : string :=
  Str.concat (List.map (fun d => fill indent "@" ++ expr_text d) ds).

(** [elif] is set where the statement is the single [If] of an [orelse]
    and is written as an [elif] clause of the enclosing [If]. *)
Fixpoint stmt_text_as (elif : bool) (indent : nat) (s : stmt) : string :=
  let block := fun (b : list stmt) =>
    ":" ++ Str.concat (List.map (stmt_text_as false (S indent)) b) in
  let orelse_text := fun (o : list stmt) =>
    match o with
    | [] => ""
    | _ => fill indent "else" ++ block o
    end in
  match s with
  | FunctionDef n a b d =>
      Str.nl ++ decorators_text indent d
      ++ fill indent ("def " ++ n) ++ "(" ++ Str.join ", " a ++ ")"
      ++ block b
  | AsyncFunctionDef n a b d =>
      Str.nl ++ decorators_text indent d
      ++ fill indent ("async def " ++ n) ++ "(" ++ Str.join ", " a ++ ")"
      ++ block b
  | ClassDef n bs b d =>
      Str.nl ++ decorators_text indent d
      ++ fill indent ("class " ++ n)
      ++ match bs with
         | [] => ""
         | _ => "(" ++ Str.join ", " (List.map expr_text bs) ++ ")"
         end
      ++ block b
  | Return None => fill indent "return"
  | Return (Some v) => fill indent "return" ++ " " ++ expr_text v
  | Expr v => fill indent "" ++ expr_text v
  | Pass => fill indent "pass"
  | Import ns =>
      fill indent "import " ++ Str.join ", " (List.map alias_text ns)
  | ImportFrom m ns =>
      fill indent "from " ++ m ++ " import "
      ++ Str.join ", " (List.map alias_text ns)
  | If t b o =>
      fill indent (if elif then "elif " else "if ") ++ expr_text t
      ++ block b
      ++ match o with
         | [] => ""
         | [If _ _ _ as nested] => stmt_text_as true indent nested
         | _ => fill indent "else" ++ block o
         end
  | While t b o =>
      fill indent "while " ++ expr_text t ++ block b ++ orelse_text o
  | For t i b o =>
      fill indent "for " ++ expr_text t ++ " in " ++ expr_text i
      ++ block b ++ orelse_text o
  | Try b hs o f =>
      fill indent "try" ++ block b
      ++ Str.concat
           (List.map
              (fun h =>
                 match h with
                 | ExceptHandler ty nm hb =>
                     fill indent "except"
                     ++ match ty with
                        | Some e => " " ++ expr_text e
                        | None => ""
                        end
                     ++ match nm with
                        | Some x => " as " ++ x
                        | None => ""
                        end
                     ++ block hb
                 end) hs)
      ++ orelse_text o
      ++ match f with
         | [] => ""
         | _ => fill indent "finally" ++ block f
         end
  end.

Definition stmt_text : nat -> stmt -> string := stmt_text_as false.

(** Nothing is written before the first line: the line feeds that
    [maybe_newline] would emit into an empty buffer are dropped. *)
Fixpoint drop_newlines (s : string) : string :=
  match s with
  | String c rest =>
      if Ascii.eqb c (ascii_of_nat 10) then drop_newlines rest else s
  | EmptyString => EmptyString
  end.

Definition module_text (t : module) : string :=
  drop_newlines (Str.concat (List.map (stmt_text 0) t)).

(** [ast.unparse] with the interpreter's recursion limit: a tree nested
    deeper than [limit] raises [RecursionError]. *)
Definition ast_unparse (limit : nat) (t : module) : result string :=
  if Nat.leb (module_depth t) limit
  then Ok (module_text t)
  else Raised "maximum recursion depth exceeded".

(** A parser given by its graph on finitely many texts; every other
    text is a [SyntaxError]. *)
Fixpoint parse_table (table : list (string * module)) (code : string)
  : result module :=
  match table with
  | [] => Raised "invalid syntax"
  | (text, tree) :: rest =>
      if String.eqb text code then Ok tree else parse_table rest code
  end.

End Unparse.

(** ** The driver (lines 175-269)

    [main] reads [sys.argv] and the standard input, prints, touches the
    file system and may leave through [sys.exit].  It is a computation in
    a state monad over the world it runs in, whose outcome is a value, an
    exit status or an exception nobody caught. *)

Module Driver.

(** What [subprocess.run(..., check=True)] did. *)
Inductive child : Type :=
  | ChildOk
  | ChildFailed (e : string)
  | ChildNotStarted (e : string).

Inductive outcome (A : Type) : Type :=
  | Done (a : A)
  | Exit (status : nat)
  | Uncaught (e : string).

Arguments Done {A} a.
Arguments Exit {A} status.
Arguments Uncaught {A} e.

(** The status the interpreter ends with. *)
Definition exit_status {A : Type} (o : outcome A) : nat :=
  match o with
  | Done _ => 0
  | Exit status => status
  | Uncaught _ => 1
  end.

(** [l.remove(x)] where [x in l]: the first occurrence goes. *)
Fixpoint list_remove (x : string) (l : list string) : list string :=
  match l with
  | [] => []
  | y :: rest => if String.eqb y x then rest else y :: list_remove x rest
  end.

(** [x in l] on a list of strings. *)
Definition list_mem (x : string) (l : list string) : bool :=
  existsb (String.eqb x) l.

Section Host.

(** The file system and the runtime calls of [main]. *)
Variable FS : Type.
Variable isfile : FS -> string -> bool.
Variable read_file : FS -> string -> result string.
Variable write_file : FS -> string -> string -> result unit * FS.
Variable run_python : FS -> string -> child * FS.
Variable splitext : string -> string * string.
Variable strip : string -> string.
Variable ast_parse : string -> result module.
Variable ast_unparse : module -> result string.

Record world : Type := World {
  files : FS;
  stdin : list string;
  stdout : list string
}.

Definition io (A : Type) : Type := world -> outcome A * world.

Definition ret {A : Type} (a : A) : io A := fun w => (Done a, w).

Definition bind {A B : Type} (c : io A) (k : A -> io B) : io B :=
  fun w =>
    match c w with
    | (Done a, w') => k a w'
    | (Exit status, w') => (Exit status, w')
    | (Uncaught e, w') => (Uncaught e, w')
    end.

Notation "x <- c ;; k" := (bind c (fun x => k))
  (at level 61, c at next level, right associativity).
Notation "c ;;; k" := (bind c (fun _ => k))
  (at level 61, right associativity).

Definition print (line : string) : io unit :=
  fun w => (Done tt, World (files w) (stdin w) (stdout w ++ [line])%list).

Definition print_all (lines : list string) : io unit :=
  fun w => (Done tt, World (files w) (stdin w) (stdout w ++ lines)%list).

Definition sys_exit {A : Type} (status : nat) : io A :=
  fun w => (Exit status, w).

(** [input(prompt)]: the prompt is shown, one line is consumed; at the
    end of the input [EOFError] is raised. *)
Definition input (prompt : string) : io string :=
  fun w =>
    let shown := (stdout w ++ [prompt])%list in
    match stdin w with
    | [] => (Uncaught "EOFError", World (files w) [] shown)
    | line :: rest => (Done line, World (files w) rest shown)
    end.

Definition os_path_isfile (path : string) : io bool :=
  fun w => (Done (isfile (files w) path), w).

Definition open_read (path : string) : io (result string) :=
  fun w => (Done (read_file (files w) path), w).

Definition open_write (path content : string) : io (result unit) :=
  fun w =>
    let (r, fs') := write_file (files w) path content in
    (Done r, World fs' (stdin w) (stdout w)).

Definition subprocess_run (path : string) : io child :=
  fun w =>
    let (r, fs') := run_python (files w) path in
    (Done r, World fs' (stdin w) (stdout w)).

Definition menu : string :=
  "Please select one of the following optimization methods:" ++ Str.nl ++
  "1 - Multiprocessing support" ++ Str.nl ++
  "2 - Translation to C/C++" ++ Str.nl ++
  "3 - Numba JIT optimization" ++ Str.nl ++
  "4 - Cython preparation" ++ Str.nl ++
  "5 - Caching with lru_cache" ++ Str.nl ++
  "6 - Vectorized operations (NumPy)" ++ Str.nl ++
  "Your choice (1-6): ".

(** [display_menu] (lines 175-190). *)
Definition display_menu : io string :=
  choice <- input menu ;;
  ret (strip choice).

(** Lines 195-217 of [main]: the file name, the method and the run
    flag, from [args = sys.argv[1:]] or from the prompts. *)
Definition resolve_inputs (args : list string)
  : io (string * string * bool) :=
  match args with
  | [] =>
      filename <- input "Enter the Python file name to optimize: " ;;
      method_choice <- display_menu ;;
      ret (strip filename, method_choice, false)
  | first :: _ =>
      let filename := first in
      let run_flag := list_mem "--run" args in
      let args := if run_flag then list_remove "--run" args else args in
      match args with
      | _ :: second :: _ => ret (filename, second, run_flag)
      | _ =>
          method_choice <- display_menu ;;
          ret (filename, method_choice, run_flag)
      end
  end.

(** Lines 219-268 of [main], once the inputs are known. *)
Definition process (filename method_choice : string) (run_flag : bool)
  : io unit :=
  exists_ <- os_path_isfile filename ;;
  if negb exists_ then
    print "Error: The specified file does not exist." ;;; sys_exit 1
  else
    r <- open_read filename ;;
    match r with
    | Raised e => print ("Error reading file: " ++ e) ;;; sys_exit 1
    | Ok code =>
        match apply_method ast_parse ast_unparse method_choice code with
        | None => print "Invalid selection!" ;;; sys_exit 1
        | Some (optimized_code, printed) =>
            print_all printed ;;;
            let (base, ext) := splitext filename in
            let new_filename := base ++ "_FAST" ++ ext in
            wr <- open_write new_filename optimized_code ;;
            match wr with
            | Raised e =>
                print ("Error saving the optimized file: " ++ e) ;;;
                sys_exit 1
            | Ok _ =>
                print ("Optimized file saved as '" ++ new_filename
                       ++ "'.") ;;;
                if run_flag then
                  print "Executing the optimized file..." ;;;
                  c <- subprocess_run new_filename ;;
                  match c with
                  | ChildOk => ret tt
                  | ChildFailed e =>
                      print ("Error running the optimized file: " ++ e)
                      ;;; sys_exit 1
                  | ChildNotStarted e => fun w => (Uncaught e, w)
                  end
                else ret tt
            end
        end
    end.

(** [main] (lines 193-268); [argv] is [sys.argv]. *)
Definition main (argv : list string) : io unit :=
  inputs <- resolve_inputs (List.tl argv) ;;
  match inputs with
  | (filename, method_choice, run_flag) =>
      process filename method_choice run_flag
  end.

End Host.

Arguments World {FS} files stdin stdout.
Arguments files {FS} w.
Arguments stdin {FS} w.
Arguments stdout {FS} w.

End Driver.

(** ** A small runtime

    Concrete stand-ins for the runtime calls, used to evaluate the
    program: files as an association list, [os.path.splitext], and a
    parser tabulated on the sample programs below.  Each table entry is
    the tree [ast.parse] builds for that text. *)

Module Sample.

(** A text from its lines, joined by line feeds. *)
Definition text (ls : list string) : string := Str.join Str.nl ls.

Definition FS : Type := list (string * string).

Fixpoint lookup (fs : FS) (path : string) : option string :=
  match fs with
  | [] => None
  | (p, c) :: rest => if String.eqb p path then Some c else lookup rest path
  end.

Definition isfile (fs : FS) (path : string) : bool :=
  match lookup fs path with Some _ => true | None => false end.

Definition read_file (fs : FS) (path : string) : result string :=
  match lookup fs path with
  | Some c => Ok c
  | None => Raised "[Errno 2] No such file or directory"
  end.

Definition write_file (fs : FS) (path content : string)
  : result unit * FS :=
  (Ok tt, (path, content) :: fs).

Definition run_python (fs : FS) (path : string) : Driver.child * FS :=
  (Driver.ChildOk, fs).

(** The directory part (with its final slash) and the last component. *)
Fixpoint last_component (p : string) : string * string :=
  match p with
  | EmptyString => (EmptyString, EmptyString)
  | String c rest =>
      match last_component rest with
      | (EmptyString, f) =>
          if Ascii.eqb c "/" then (String c EmptyString, rest)
          else (EmptyString, String c f)
      | (d, f) => (String c d, f)
      end
  end.

(** The text before the last dot and the text from it on. *)
Fixpoint split_last_dot (s : string) : option (string * string) :=
  match s with
  | EmptyString => None
  | String c rest =>
      match split_last_dot rest with
      | Some (b, e) => Some (String c b, e)
      | None => if Ascii.eqb c "." then Some (EmptyString, s) else None
      end
  end.

Fixpoint only_dots (s : string) : bool :=
  match s with
  | EmptyString => true
  | String c rest => Ascii.eqb c "." && only_dots rest
  end.

(** [os.path.splitext]: the extension starts at the last dot of the
    last component, leading dots of that component apart. *)
Definition splitext (p : string) : string * string :=
  let (d, f) := last_component p in
  match split_last_dot f with
  | Some (b, e) => if only_dots b then (p, EmptyString) else (d ++ b, e)
  | None => (p, EmptyString)
  end.

(** [sys.getrecursionlimit()] of a fresh interpreter. *)
Definition recursion_limit : nat := 1000.

Definition ast_unparse : module -> result string :=
  Unparse.ast_unparse recursion_limit.

(** Sample programs and their trees. *)
Definition one : expr := Constant (CInt 1).

Definition def_f : string := text ["def f():"; "    return 1"; ""].
Definition def_f_tree : module :=
  [FunctionDef "f" [] [Return (Some one)] []].

Definition cached_f : string :=
  text ["from functools import lru_cache"; "def f():"; "    return 1"; ""].
Definition cached_f_tree : module :=
  [ImportFrom "functools" [("lru_cache", None)];
   FunctionDef "f" [] [Return (Some one)] []].

Definition cached_f_out : string :=
  text ["from functools import lru_cache"; ""; "@lru_cache"; "def f():";
        "    return 1"].
Definition cached_f_out_tree : module :=
  [ImportFrom "functools" [("lru_cache", None)];
   FunctionDef "f" [] [Return (Some one)] [Name "lru_cache"]].

Definition traced_f : string :=
  text ["@trace"; "def f():"; "    return 1"; ""].
Definition traced_f_tree : module :=
  [FunctionDef "f" [] [Return (Some one)] [Name "trace"]].

Definition called_g : string :=
  text ["@lru_cache(maxsize=None)"; "def g(n):"; "    return n"; ""].
Definition called_g_tree : module :=
  [FunctionDef "g" ["n"] [Return (Some (Name "n"))]
     [Call (Name "lru_cache") [] [("maxsize", Constant CNone)]]].

Definition nested_f : string :=
  text ["def f():"; "    def g():"; "        pass"; "    return g"; ""].
Definition nested_f_tree : module :=
  [FunctionDef "f" []
     [FunctionDef "g" [] [Pass] []; Return (Some (Name "g"))] []].

Definition numba_nested_f : string :=
  text ["from numba import njit"; "def f():"; "    def g():";
        "        pass"; "    return g"; ""].
Definition numba_nested_f_tree : module :=
  ImportFrom "numba" [("njit", None)] :: nested_f_tree.

Definition async_h : string :=
  text ["async def h():"; "    def k():"; "        pass"; ""].
Definition async_h_tree : module :=
  [AsyncFunctionDef "h" [] [FunctionDef "k" [] [Pass] []] []].

Definition broken : string := text ["def f(:"; "    return 1"; ""].

Definition table : list (string * module) :=
  [(def_f, def_f_tree); (cached_f, cached_f_tree);
   (cached_f_out, cached_f_out_tree); (traced_f, traced_f_tree);
   (called_g, called_g_tree); (nested_f, nested_f_tree);
   (numba_nested_f, numba_nested_f_tree); (async_h, async_h_tree)].

Definition ast_parse : string -> result module :=
  Unparse.parse_table table.

(** An identifier the parser normalises: U+FB01 (the ligature of f and
    i, three bytes in UTF-8) followed by [x] is read as [fix], while the
    printer writes the name of a node as it is stored. *)
Definition ligature_fix : string :=
  String (ascii_of_nat 239)
    (String (ascii_of_nat 172) (String (ascii_of_nat 129) "x")).

Definition pass_f : string := text ["def f():"; "    pass"; ""].
Definition pass_f_tree : module := [FunctionDef "f" [] [Pass] []].

Definition ligature_f_out : string :=
  text ["@" ++ ligature_fix; "def f():"; "    pass"].
Definition ligature_f_out_tree : module :=
  [FunctionDef "f" [] [Pass] [Name "fix"]].

Definition normalising_table : list (string * module) :=
  [(pass_f, pass_f_tree); (ligature_f_out, ligature_f_out_tree)].

Definition normalising_parse : string -> result module :=
  Unparse.parse_table normalising_table.

Definition add_decorator : string -> string -> string * list string :=
  add_decorator_to_functions ast_parse ast_unparse.

Definition main : list string -> Driver.io FS unit :=
  Driver.main FS isfile read_file write_file run_python splitext
              Str.strip ast_parse ast_unparse.

Definition disk : FS := [("prog.py", def_f)].

Definition fresh (input : list string) : Driver.world FS :=
  Driver.World disk input [].

End Sample.

(** ** Vocabulary of the specification

    Predicates that follow the words of the specification, to be compared
    with what the program computes. *)

Module Spec.

(** A decorator that names [d], bare or called. *)
Definition called_as (d : string) (dec : expr) : bool :=
  match dec with
  | Call (Name id) _ _ => String.eqb id d
  | _ => false
  end.

(** The only decorators of the list that name [d] are calls, and there
    is one. *)
Definition only_as_call (d : string) (decs : list expr) : Prop :=
  existsb (called_as d) decs = true /\ has_decorator d decs = false.

(** Every decorator naming [d] is written as a bare name, on every
    function definition of the statement. *)
Definition decs_bare (d : string) (decs : list expr) : bool :=
  negb (existsb (called_as d) decs).

Fixpoint stmt_bare (d : string) (s : stmt) : bool :=
  match s with
  | FunctionDef _ _ b decs | AsyncFunctionDef _ _ b decs
  | ClassDef _ _ b decs =>
      decs_bare d decs && forallb (stmt_bare d) b
  | If _ b o | While _ b o | For _ _ b o =>
      forallb (stmt_bare d) b && forallb (stmt_bare d) o
  | Try b hs o f =>
      forallb (stmt_bare d) b
      && forallb (fun h => match h with
                           | ExceptHandler _ _ hb =>
                               forallb (stmt_bare d) hb
                           end) hs
      && forallb (stmt_bare d) o && forallb (stmt_bare d) f
  | _ => true
  end.

Definition written_bare (d : string) (t : module) : bool :=
  forallb (stmt_bare d) t.

(** The statement with the decorator list of every function definition
    emptied: what is left when decorator lists are not looked at. *)
Fixpoint erase (s : stmt) : stmt :=
  match s with
  | FunctionDef n a b _ => FunctionDef n a (List.map erase b) []
  | AsyncFunctionDef n a b d => AsyncFunctionDef n a (List.map erase b) d
  | ClassDef n bs b d => ClassDef n bs (List.map erase b) d
  | If t b o => If t (List.map erase b) (List.map erase o)
  | While t b o => While t (List.map erase b) (List.map erase o)
  | For t i b o => For t i (List.map erase b) (List.map erase o)
  | Try b hs o f =>
      Try (List.map erase b) (List.map erase_handler hs)
          (List.map erase o) (List.map erase f)
  | other => other
  end
with erase_handler (h : excepthandler) : excepthandler :=
  match h with
  | ExceptHandler t n b => ExceptHandler t n (List.map erase b)
  end.

(** Two statement lists that differ in decorator lists of function
    definitions only. *)
Definition same_but_decorators (l l' : list stmt) : Prop :=
  List.map erase l = List.map erase l'.

(** "Gains it as the innermost decorator, the last one of the
    decorator list": every function definition of [t] that lacks the
    bare name has it appended in [t']. *)
Definition gains_innermost (d : string) (t t' : module) : Prop :=
  forall p n a b decs,
    node_at p t = Some (FunctionDef n a b decs) ->
    has_decorator d decs = false ->
    exists b',
      node_at p t' = Some (FunctionDef n a b' (decs ++ [Name d])%list).

(** "Present with an identical body": every function definition of [t]
    is in [t'] at the same place with the same body. *)
Definition bodies_identical (t t' : module) : Prop :=
  forall p n a b decs,
    node_at p t = Some (FunctionDef n a b decs) ->
    exists decs', node_at p t' = Some (FunctionDef n a b decs').



(** The six method identifiers. *)
Definition methods : list string := ["1"; "2"; "3"; "4"; "5"; "6"].

(** A line that reports an error to the user. *)
Definition is_error_line (line : string) : bool :=
  String.eqb line "Invalid selection!" || String.prefix "Error" line.

(** The text is inside the result as it was, with text before and
    after it. *)
Definition verbatim (S out : string) : Prop :=
  exists pre post, out = pre ++ S ++ post.

(** The tree rewrite behind methods 3 and 5: the result is a banner and
    the text of the rewritten tree of the input (with its import line),
    and the two trees differ in decorator lists only, also inside every
    function body. *)
Definition rewritten (ast_parse : string -> result module)
           (ast_unparse : module -> result string)
           (S out : string) : Prop :=
  exists (D line pre : string) (t : module) (s : string),
    ast_parse (ensure_import S line) = Ok t
    /\ ast_unparse (DecoratorAdder D t) = Ok s
    /\ out = pre ++ s
    /\ same_but_decorators t (DecoratorAdder D t)
    /\ forall p n a b decs,
         node_at p t = Some (FunctionDef n a b decs) ->
         exists b' decs',
           node_at p (DecoratorAdder D t)
           = Some (FunctionDef n a b' decs')
           /\ same_but_decorators b b'.

End Spec.

(** * Properties *)

(** ** The tree rewrite *)

Section VisitFacts.

Variable D : string.

Lemma handler_body_visit (h : excepthandler) :
  handler_body (visit_handler D h) = List.map (visit D) (handler_body h).
Proof. destruct h; reflexivity. Qed.

Lemma children_visit (s : stmt) :
  children (visit D s) = List.map (visit D) (children s).
Proof.
  destruct s; simpl; rewrite ?map_app; try reflexivity.
  do 2 f_equal.
  rewrite concat_map, !map_map.
  f_equal. apply map_ext. intro h. apply handler_body_visit.
Qed.

(** The rewrite keeps every path: the node at [p] afterwards is the
    rewritten node that was at [p] before. *)
Lemma node_at_visit (p : list nat) :
  forall l : list stmt,
    node_at p (List.map (visit D) l) = option_map (visit D) (node_at p l).
Proof.
  induction p as [|i q IH]; intro l; simpl; [reflexivity|].
  rewrite nth_error_map.
  destruct (nth_error l i) as [s|]; simpl; [|reflexivity].
  destruct q as [|j q']; [reflexivity|].
  rewrite children_visit. apply IH.
Qed.

Lemma map_fixed {A : Type} (f g : A -> A) (l : list A) :
  Forall (fun x => f (g x) = g x) l ->
  List.map f (List.map g l) = List.map g l.
Proof.
  induction 1 as [|x r Hx _ IH]; simpl; [reflexivity|].
  now rewrite Hx, IH.
Qed.

(** The presence check is membership of the bare name. *)
Lemma has_decorator_spec (decs : list expr) :
  has_decorator D decs = true <-> In (Name D) decs.
Proof.
  unfold has_decorator. rewrite existsb_exists. split.
  - intros [dec [Hin Hb]]. destruct dec; try discriminate Hb.
    simpl in Hb. apply String.eqb_eq in Hb. now subst.
  - intro Hin. exists (Name D). split; [exact Hin|].
    simpl. apply String.eqb_refl.
Qed.

Lemma has_decorator_insert (decs : list expr) :
  has_decorator D (insert_decorator D decs) = true.
Proof.
  unfold insert_decorator.
  destruct (has_decorator D decs) eqn:E; [exact E|].
  simpl. now rewrite String.eqb_refl.
Qed.

Lemma insert_decorator_idem (decs : list expr) :
  insert_decorator D (insert_decorator D decs) = insert_decorator D decs.
Proof.
  unfold insert_decorator at 1. now rewrite has_decorator_insert.
Qed.

(** A second visit finds the bare name on every function definition. *)
Lemma visit_idem (s : stmt) : visit D (visit D s) = visit D s.
Proof.
  induction s using stmt_nested_ind
    with (Q := fun h => visit_handler D (visit_handler D h)
                        = visit_handler D h);
    simpl; rewrite ?insert_decorator_idem; f_equal;
    auto using map_fixed.
Qed.

Lemma DecoratorAdder_idem (t : module) :
  DecoratorAdder D (DecoratorAdder D t) = DecoratorAdder D t.
Proof.
  unfold DecoratorAdder. apply map_fixed.
  apply Forall_forall. intros s _. apply visit_idem.
Qed.

(** The rewrite changes decorator lists of function definitions and
    nothing else. *)
Lemma erase_visit (s : stmt) : Spec.erase (visit D s) = Spec.erase s.
Proof.
  induction s using stmt_nested_ind
    with (Q := fun h => Spec.erase_handler (visit_handler D h)
                        = Spec.erase_handler h);
    simpl; try reflexivity; f_equal;
    rewrite map_map; apply map_ext_Forall; assumption.
Qed.

End VisitFacts.

(** ** The transformer on text *)

Section TransformerFacts.

Variable ast_parse : string -> result module.
Variable ast_unparse : module -> result string.

Local Notation "'transform'" :=
  (add_decorator_to_functions ast_parse ast_unparse).

(** When both runtime calls return, the transformer returns the text of
    the rewritten tree and prints nothing. *)
Lemma transform_ok (code D : string) (t : module) (s : string) :
  ast_parse code = Ok t ->
  ast_unparse (DecoratorAdder D t) = Ok s ->
  transform code D = (s, []).
Proof.
  intros Hp Hu. unfold add_decorator_to_functions.
  now rewrite Hp, Hu.
Qed.

(** A function definition at [p] is still one at [p] after the rewrite,
    with the rewritten body and the decorator list of lines 68-74. *)
Lemma FunctionDef_visited (D : string) (t : module) (p : list nat)
      (n : string) (a : list string) (b : list stmt) (decs : list expr) :
  node_at p t = Some (FunctionDef n a b decs) ->
  node_at p (DecoratorAdder D t)
  = Some (FunctionDef n a (List.map (visit D) b)
                      (insert_decorator D decs)).
Proof.
  intro H. unfold DecoratorAdder. now rewrite node_at_visit, H.
Qed.

(** C3: when the text does not parse, the transformer returns its input
    unchanged and prints the diagnostic; it returns a value and raises
    nothing. *)
Theorem parse_failure_returns_input (code D e : string) :
  ast_parse code = Raised e ->
  transform code D = (code, ["Error parsing AST: " ++ e]).
Proof.
  intro Hp. unfold add_decorator_to_functions.
  now rewrite Hp.
Qed.

(** C8: when regenerating the text from the rewritten tree fails, the
    transformer returns the original text, not a partial output, and
    prints the diagnostic. *)
Theorem unparse_failure_returns_input (code D e : string) (t : module) :
  ast_parse code = Ok t ->
  ast_unparse (DecoratorAdder D t) = Raised e ->
  transform code D
  = (code, ["Error generating optimized code from AST: " ++ e]).
Proof.
  intros Hp Hu. unfold add_decorator_to_functions.
  now rewrite Hp, Hu.
Qed.

(** C1, as the program has it: for parseable text, the rewrite gives
    every function definition, at any nesting level, that lacked the bare
    name that name at index 0 of its decorator list, before the
    decorators it had: the outermost decorator, on the top line of the
    stack.  The transformer returns the text regenerated from that tree
    when regeneration succeeds, and its input with the diagnostic when
    regeneration raises. *)
Theorem decorator_inserted_first (code D : string) (t : module)
        (p : list nat) (n : string) (a : list string)
        (b : list stmt) (decs : list expr) :
  ast_parse code = Ok t ->
  node_at p t = Some (FunctionDef n a b decs) ->
  has_decorator D decs = false ->
  node_at p (DecoratorAdder D t)
  = Some (FunctionDef n a (List.map (visit D) b) (Name D :: decs))
  /\ transform code D
     = match ast_unparse (DecoratorAdder D t) with
       | Ok s => (s, [])
       | Raised e =>
           (code, ["Error generating optimized code from AST: " ++ e])
       end.
Proof.
  intros Hp Hn Hd. split.
  - rewrite (FunctionDef_visited D t p n a b decs Hn).
    unfold insert_decorator. now rewrite Hd.
  - unfold add_decorator_to_functions. now rewrite Hp.
Qed.

(** C4: a function definition whose only decorator of the target name
    is a call is treated as undecorated: the bare name is inserted
    before the call. *)
Theorem call_decorator_not_recognised (code D : string) (t : module)
        (s : string) (p : list nat) (n : string) (a : list string)
        (b : list stmt) (decs : list expr) :
  ast_parse code = Ok t ->
  ast_unparse (DecoratorAdder D t) = Ok s ->
  node_at p t = Some (FunctionDef n a b decs) ->
  Spec.only_as_call D decs ->
  transform code D = (s, [])
  /\ node_at p (DecoratorAdder D t)
     = Some (FunctionDef n a (List.map (visit D) b) (Name D :: decs)).
Proof.
  intros Hp Hu Hn [_ Hd]. split; [now apply transform_ok with t|].
  rewrite (FunctionDef_visited D t p n a b decs Hn).
  unfold insert_decorator. now rewrite Hd.
Qed.

(** C10: an [async def] is never given the decorator: wherever it is in
    the tree, it keeps exactly its decorator list, whether or not the
    name is in it; only its body is visited. *)
Theorem async_def_not_decorated (code D : string) (t : module)
        (s : string) (p : list nat) (n : string) (a : list string)
        (b : list stmt) (decs : list expr) :
  ast_parse code = Ok t ->
  ast_unparse (DecoratorAdder D t) = Ok s ->
  node_at p t = Some (AsyncFunctionDef n a b decs) ->
  transform code D = (s, [])
  /\ node_at p (DecoratorAdder D t)
     = Some (AsyncFunctionDef n a (List.map (visit D) b) decs).
Proof.
  intros Hp Hu Hn. split; [now apply transform_ok with t|].
  unfold DecoratorAdder. now rewrite node_at_visit, Hn.
Qed.

(** Idempotence needs one fact about the runtime: the text written for
    the rewritten tree parses back to that tree. *)
Lemma transform_twice (S D : string) (t : module) :
  ast_parse S = Ok t ->
  (forall s, ast_unparse (DecoratorAdder D t) = Ok s ->
             ast_parse s = Ok (DecoratorAdder D t)) ->
  fst (transform (fst (transform S D)) D) = fst (transform S D).
Proof.
  intros Hp Hrt. unfold add_decorator_to_functions.
  rewrite Hp.
  destruct (ast_unparse (DecoratorAdder D t)) as [s|e] eqn:Hu; simpl.
  - rewrite (Hrt s eq_refl), DecoratorAdder_idem, Hu. reflexivity.
  - now rewrite Hp, Hu.
Qed.

(** C2, as the program has it: for parseable text whose decorators of
    the given name are bare names, transforming twice gives the text of
    transforming once, provided the parser reads the text regenerated
    for the rewritten tree back as that tree. *)
Theorem transform_idempotent (S D : string) (t : module) :
  ast_parse S = Ok t ->
  Spec.written_bare D t = true ->
  (forall s, ast_unparse (DecoratorAdder D t) = Ok s ->
             ast_parse s = Ok (DecoratorAdder D t)) ->
  fst (transform (fst (transform S D)) D) = fst (transform S D).
Proof.
  intros Hp _ Hrt. now apply transform_twice with t.
Qed.

End TransformerFacts.

(** C3 on the sample runtime: a text with a syntax error. *)
Lemma parse_failure_returns_input_witness :
  Sample.ast_parse Sample.broken = Raised "invalid syntax"
  /\ Sample.add_decorator Sample.broken "njit"
     = (Sample.broken, ["Error parsing AST: invalid syntax"]).
Proof.
  split; [reflexivity|].
  apply (parse_failure_returns_input Sample.ast_parse Sample.ast_unparse).
  reflexivity.
Defined.

(** C8 on a runtime whose printer gives up on any nesting. *)
Lemma unparse_failure_returns_input_witness :
  add_decorator_to_functions Sample.ast_parse (Unparse.ast_unparse 0)
                             Sample.def_f "njit"
  = (Sample.def_f,
     ["Error generating optimized code from AST: maximum recursion depth exceeded"]).
Proof.
  apply (unparse_failure_returns_input Sample.ast_parse
           (Unparse.ast_unparse 0) Sample.def_f "njit" _ Sample.def_f_tree);
    reflexivity.
Defined.

(** C1 as stated fails where the function already has a decorator: the
    new one goes above [@trace], not between it and the [def] line. *)
Lemma innermost_refuted :
  Sample.add_decorator Sample.traced_f "njit"
  = (Sample.text ["@njit"; "@trace"; "def f():"; "    return 1"], [])
  /\ ~ Spec.gains_innermost "njit" Sample.traced_f_tree
         (DecoratorAdder "njit" Sample.traced_f_tree).
Proof.
  split; [reflexivity|].
  intro H.
  destruct (H [0] "f" [] [Return (Some Sample.one)] [Name "trace"]
              eq_refl eq_refl) as [b' Hb'].
  discriminate Hb'.
Qed.

(** C1 as amended, on the same function. *)
Lemma decorator_inserted_first_witness :
  node_at [0] (DecoratorAdder "njit" Sample.traced_f_tree)
  = Some (FunctionDef "f" []
            (List.map (visit "njit") [Return (Some Sample.one)])
            [Name "njit"; Name "trace"])
  /\ Sample.add_decorator Sample.traced_f "njit"
     = (Sample.text ["@njit"; "@trace"; "def f():"; "    return 1"], []).
Proof.
  apply (decorator_inserted_first Sample.ast_parse Sample.ast_unparse
           Sample.traced_f "njit" Sample.traced_f_tree);
    reflexivity.
Defined.

(** C4 on [@lru_cache(maxsize=None)]. *)
Lemma call_decorator_not_recognised_witness :
  Sample.add_decorator Sample.called_g "lru_cache"
  = (Sample.text ["@lru_cache"; "@lru_cache(maxsize=None)"; "def g(n):";
                  "    return n"], [])
  /\ node_at [0] (DecoratorAdder "lru_cache" Sample.called_g_tree)
     = Some (FunctionDef "g" ["n"]
               (List.map (visit "lru_cache") [Return (Some (Name "n"))])
               [Name "lru_cache";
                Call (Name "lru_cache") [] [("maxsize", Constant CNone)]]).
Proof.
  apply (call_decorator_not_recognised Sample.ast_parse Sample.ast_unparse
           Sample.called_g "lru_cache" Sample.called_g_tree);
    try reflexivity.
  split; reflexivity.
Defined.

(** C10 on an [async def] that holds an ordinary [def]. *)
Lemma async_def_not_decorated_witness :
  Sample.add_decorator Sample.async_h "njit"
  = (Sample.text ["async def h():"; ""; "    @njit"; "    def k():";
                  "        pass"], [])
  /\ node_at [0] (DecoratorAdder "njit" Sample.async_h_tree)
     = Some (AsyncFunctionDef "h" []
               (List.map (visit "njit") [FunctionDef "k" [] [Pass] []]) []).
Proof.
  apply (async_def_not_decorated Sample.ast_parse Sample.ast_unparse
           Sample.async_h "njit" Sample.async_h_tree);
    reflexivity.
Defined.

(** C2 as stated fails for a name the parser normalises: the first pass
    writes [@] and the ligature name above [def f], the parser reads it
    back as [fix], the second pass does not find the name it looks for
    and inserts it again.  The input has no decorator at all, so every
    decorator of that name in it is a bare name. *)
Lemma idempotence_refuted :
  Sample.normalising_parse Sample.pass_f = Ok Sample.pass_f_tree
  /\ Spec.written_bare Sample.ligature_fix Sample.pass_f_tree = true
  /\ fst (add_decorator_to_functions Sample.normalising_parse
            Sample.ast_unparse Sample.pass_f Sample.ligature_fix)
     = Sample.text ["@" ++ Sample.ligature_fix; "def f():"; "    pass"]
  /\ fst (add_decorator_to_functions Sample.normalising_parse
            Sample.ast_unparse
            (fst (add_decorator_to_functions Sample.normalising_parse
                    Sample.ast_unparse Sample.pass_f Sample.ligature_fix))
            Sample.ligature_fix)
     = Sample.text ["@" ++ Sample.ligature_fix; "@fix"; "def f():";
                    "    pass"]
  /\ fst (add_decorator_to_functions Sample.normalising_parse
            Sample.ast_unparse
            (fst (add_decorator_to_functions Sample.normalising_parse
                    Sample.ast_unparse Sample.pass_f Sample.ligature_fix))
            Sample.ligature_fix)
     <> fst (add_decorator_to_functions Sample.normalising_parse
               Sample.ast_unparse Sample.pass_f Sample.ligature_fix).
Proof.
  repeat split; try reflexivity.
  vm_compute. discriminate.
Qed.

(** C2 on the cached sample: the second pass reads the first pass's text
    back and leaves it as it is. *)
Lemma transform_idempotent_witness :
  fst (Sample.add_decorator
         (fst (Sample.add_decorator Sample.cached_f "lru_cache"))
         "lru_cache")
  = fst (Sample.add_decorator Sample.cached_f "lru_cache").
Proof.
  apply (transform_idempotent Sample.ast_parse Sample.ast_unparse
           Sample.cached_f "lru_cache" Sample.cached_f_tree).
  - reflexivity.
  - reflexivity.
  - intros s H. vm_compute in H. injection H as <-. reflexivity.
Defined.

(** ** The six methods *)

Section MethodFacts.

Variable ast_parse : string -> result module.
Variable ast_unparse : module -> result string.

Lemma append_nil_r (s : string) : s ++ "" = s.
Proof. induction s as [|c s IH]; simpl; [reflexivity | now rewrite IH]. Qed.

Lemma append_assoc (s1 s2 s3 : string) :
  (s1 ++ s2) ++ s3 = s1 ++ (s2 ++ s3).
Proof.
  induction s1 as [|c s1 IH]; simpl; [reflexivity | now rewrite IH].
Qed.

(** [ensure_import] leaves the text or puts one line before it. *)
Lemma ensure_import_cases (code import_line : string) :
  ensure_import code import_line = code
  \/ ensure_import code import_line = import_line ++ Str.nl ++ code.
Proof.
  unfold ensure_import.
  destruct (Str.contains import_line code); simpl; auto.
Qed.

Lemma verbatim_after_import (S line pre : string) :
  Spec.verbatim S (pre ++ ensure_import S line).
Proof.
  destruct (ensure_import_cases S line) as [E|E]; rewrite E.
  - exists pre, "". now rewrite append_nil_r.
  - exists (pre ++ line ++ Str.nl), "".
    now rewrite append_nil_r, !append_assoc.
Qed.

Lemma same_but_decorators_visit (D : string) (l : list stmt) :
  Spec.same_but_decorators l (List.map (visit D) l).
Proof.
  unfold Spec.same_but_decorators. rewrite map_map.
  apply map_ext. intro s. symmetry. apply erase_visit.
Qed.

Lemma tree_method (S D line pre : string) :
  let r := add_decorator_to_functions ast_parse ast_unparse
             (ensure_import S line) D in
  Spec.verbatim S (pre ++ fst r)
  \/ Spec.rewritten ast_parse ast_unparse S (pre ++ fst r).
Proof.
  unfold add_decorator_to_functions.
  destruct (ast_parse (ensure_import S line)) as [t|e] eqn:Hp; simpl;
    [|left; apply verbatim_after_import].
  destruct (ast_unparse (DecoratorAdder D t)) as [s|e] eqn:Hu; simpl;
    [|left; apply verbatim_after_import].
  right. exists D, line, pre, t, s.
  repeat split; try assumption.
  - apply same_but_decorators_visit.
  - intros p n a b decs Hn.
    exists (List.map (visit D) b), (insert_decorator D decs). split.
    + unfold DecoratorAdder. now rewrite node_at_visit, Hn.
    + apply same_but_decorators_visit.
Qed.

(** C6, as the program has it: under each of the six methods the input
    is either inside the output as it was, or the output is the text of
    a tree in which every function definition of the input tree is at
    its place with its name and arguments, and with its body up to the
    decorator lists of the function definitions nested in it. *)
Theorem functions_kept_up_to_decorators
        (method_choice S out : string) (printed : list string) :
  apply_method ast_parse ast_unparse method_choice S
  = Some (out, printed) ->
  Spec.verbatim S out \/ Spec.rewritten ast_parse ast_unparse S out.
Proof.
  unfold apply_method.
  repeat match goal with
         | |- context [String.eqb method_choice ?k] =>
             destruct (String.eqb method_choice k)
         end; intro H; try discriminate H.
  - injection H as <- _. left. unfold optimize_multiprocessing.
    destruct (Str.contains "if __name__" S).
    + exists ("# Note: Please ensure that the multiprocessing block in __main__ is correct."
                ++ Str.nl ++ "# [OPTIMIZATION: Multiprocessing]" ++ Str.nl),
        "".
      rewrite append_nil_r. reflexivity.
    + exists (sample_main ++ "# [OPTIMIZATION: Multiprocessing]" ++ Str.nl),
        "".
      rewrite append_nil_r. reflexivity.
  - injection H as <- _. left.
    exists ("# [OPTIMIZATION: Translated to a C/C++ version using pybind11]"
              ++ Str.nl),
      (Str.nl ++
       "# Note: For an actual translation, you need to manually configure tools such as Cython or pybind11."
       ++ Str.nl).
    reflexivity.
  - unfold optimize_numba in H.
    pose proof (tree_method S "njit" "from numba import njit"
                  ("# [OPTIMIZATION: Numba JIT applied]" ++ Str.nl)) as T.
    cbv zeta in T.
    destruct (add_decorator_to_functions ast_parse ast_unparse
                (ensure_import S "from numba import njit") "njit")
      as [o pr].
    injection H as <- _. exact T.
  - injection H as <- _. left.
    exists ("# [OPTIMIZATION: Prepared for Cython]" ++ Str.nl ++
            "# cython: language_level=3" ++ Str.nl),
      (Str.nl ++
       "# Note: To compile with Cython, change the file extension to .pyx and apply further configurations."
       ++ Str.nl).
    reflexivity.
  - unfold optimize_cache in H.
    pose proof (tree_method S "lru_cache" "from functools import lru_cache"
                  ("# [OPTIMIZATION: Caching with lru_cache applied]"
                     ++ Str.nl)) as T.
    cbv zeta in T.
    destruct (add_decorator_to_functions ast_parse ast_unparse
                (ensure_import S "from functools import lru_cache")
                "lru_cache") as [o pr].
    injection H as <- _. exact T.
  - injection H as <- _. left.
    exists ("import numpy as np" ++ Str.nl ++
            "# [OPTIMIZATION: Vectorized operations with NumPy]"
            ++ Str.nl ++ Str.nl),
      (Str.nl ++
       "# Note: It is recommended to convert loops into numpy operations for better performance."
       ++ Str.nl).
    reflexivity.
Qed.

(** Outside the six identifiers the chain reaches its [else]. *)
Lemma apply_method_invalid (method_choice code : string) :
  ~ In method_choice Spec.methods ->
  apply_method ast_parse ast_unparse method_choice code = None.
Proof.
  intro H. unfold apply_method.
  repeat match goal with
         | |- context [String.eqb method_choice ?k] =>
             destruct (String.eqb_spec method_choice k) as [->|_];
             [exfalso; apply H; simpl; tauto|]
         end.
  reflexivity.
Qed.

End MethodFacts.

(** C6 as stated fails on a nested definition: under method 3 the body
    of [f] holds [g] with [@njit] above it, so it is not the body [f] had. *)
Lemma bodies_identical_refuted :
  apply_method Sample.ast_parse Sample.ast_unparse "3" Sample.nested_f
  = Some (Sample.text
            ["# [OPTIMIZATION: Numba JIT applied]"; "from numba import njit";
             ""; "@njit"; "def f():"; ""; "    @njit"; "    def g():";
             "        pass"; "    return g"], [])
  /\ ~ Spec.bodies_identical Sample.numba_nested_f_tree
         (DecoratorAdder "njit" Sample.numba_nested_f_tree).
Proof.
  split; [reflexivity|].
  intro H.
  destruct (H [1] "f" []
              [FunctionDef "g" [] [Pass] []; Return (Some (Name "g"))] []
              eq_refl) as [decs' Hd].
  discriminate Hd.
Qed.

(** C6 as amended, on the same input. *)
Lemma functions_kept_up_to_decorators_witness :
  Spec.verbatim Sample.nested_f
    (Sample.text
       ["# [OPTIMIZATION: Numba JIT applied]"; "from numba import njit";
        ""; "@njit"; "def f():"; ""; "    @njit"; "    def g():";
        "        pass"; "    return g"])
  \/ Spec.rewritten Sample.ast_parse Sample.ast_unparse Sample.nested_f
       (Sample.text
          ["# [OPTIMIZATION: Numba JIT applied]"; "from numba import njit";
           ""; "@njit"; "def f():"; ""; "    @njit"; "    def g():";
           "        pass"; "    return g"]).
Proof.
  apply (functions_kept_up_to_decorators Sample.ast_parse Sample.ast_unparse
           "3" Sample.nested_f _ []).
  reflexivity.
Defined.

(** ** The driver *)

Section DriverFacts.

Import Driver.

Variable FS : Type.
Variable isfile : FS -> string -> bool.
Variable read_file : FS -> string -> result string.
Variable write_file : FS -> string -> string -> result unit * FS.
Variable run_python : FS -> string -> child * FS.
Variable splitext : string -> string * string.
Variable strip : string -> string.
Variable ast_parse : string -> result module.
Variable ast_unparse : module -> result string.

Local Notation "'resolve'" := (resolve_inputs FS strip).
Local Notation "'run_main'" :=
  (main FS isfile read_file write_file run_python splitext strip
        ast_parse ast_unparse).

Lemma list_remove_absent (x : string) (l : list string) :
  list_mem x l = false -> list_remove x l = l.
Proof.
  unfold list_mem. induction l as [|y r IH]; simpl; [reflexivity|].
  rewrite String.eqb_sym.
  destruct (String.eqb y x); simpl; [discriminate|].
  intro H. now rewrite IH.
Qed.

(** Resolving the inputs reads and prints; it leaves the files alone. *)
Lemma resolve_inputs_files (args : list string) (w w' : world FS)
      (r : string * string * bool) :
  resolve args w = (Done r, w') -> files w' = files w.
Proof.
  unfold resolve_inputs, display_menu, bind, input, ret.
  destruct args as [|first rest].
  - destruct (stdin w) as [|l1 [|l2 ls]]; simpl; intro H;
      inversion H; reflexivity.
  - destruct (if list_mem "--run" (first :: rest)
              then list_remove "--run" (first :: rest)
              else first :: rest) as [|x [|y l]];
      try (intro H; inversion H; reflexivity);
      destruct (stdin w) as [|l1 ls]; simpl; intro H;
      inversion H; reflexivity.
Qed.


(** C7: whatever the arguments and the input, when the method that was
    resolved is none of the six identifiers the run ends with status 1,
    its last printed line reports an error, and the files are what
    they were: nothing was written. *)
Theorem invalid_method_rejected (argv : list string) (w w1 : world FS)
        (filename method_choice : string) (run_flag : bool) :
  resolve (List.tl argv) w = (Done (filename, method_choice, run_flag), w1) ->
  ~ In method_choice Spec.methods ->
  exists line,
    run_main argv w
    = (Exit 1, World (files w) (stdin w1) (stdout w1 ++ [line])%list)
    /\ exit_status (fst (run_main argv w)) = 1
    /\ Spec.is_error_line line = true.
Proof.
  intros Hr Hm.
  pose proof (resolve_inputs_files _ _ _ _ Hr) as Hf.
  assert (exists line,
             run_main argv w
             = (Exit 1,
                World (files w) (stdin w1) (stdout w1 ++ [line])%list)
             /\ Spec.is_error_line line = true) as [line [E Hl]].
  { unfold main, bind at 1. rewrite Hr.
    unfold process, bind, os_path_isfile, open_read, print, sys_exit.
    cbv beta iota. rewrite Hf.
    destruct (isfile (files w) filename);
      cbn [negb]; cbv beta iota; rewrite ?Hf.
    - destruct (read_file (files w) filename) as [code|e];
        cbv beta iota; rewrite ?Hf.
      + rewrite (apply_method_invalid _ _ _ _ Hm).
        cbv beta iota; rewrite ?Hf.
        eexists; split; reflexivity.
      + eexists; split; reflexivity.
    - eexists; split; reflexivity. }
  exists line. rewrite E. repeat split. exact Hl.
Qed.

End DriverFacts.



(** C7 on the sample runtime: method [7]. *)
Lemma invalid_method_rejected_witness :
  exists line,
    Sample.main ["FastPython.py"; "prog.py"; "7"] (Sample.fresh [])
    = (Driver.Exit 1, Driver.World Sample.disk [] ([] ++ [line])%list)
    /\ Driver.exit_status
         (fst (Sample.main ["FastPython.py"; "prog.py"; "7"]
                           (Sample.fresh []))) = 1
    /\ Spec.is_error_line line = true.
Proof.
  apply (invalid_method_rejected Sample.FS Sample.isfile Sample.read_file
           Sample.write_file Sample.run_python Sample.splitext Str.strip
           Sample.ast_parse Sample.ast_unparse
           ["FastPython.py"; "prog.py"; "7"] (Sample.fresh [])
           (Sample.fresh []) "prog.py" "7" false).
  - reflexivity.
  - simpl. intros [H|[H|[H|[H|[H|[H|[]]]]]]]; discriminate H.
Defined.

(** ** End to end *)

(** C9: for the input [def f(): return 1] under method 5, given the
    tree the parser builds for the text with the import line, the output
    holds the line [from functools import lru_cache] once, before the
    function, and [f] carries [@lru_cache]. *)
Theorem cache_scenario (ast_parse : string -> result module) :
  ast_parse Sample.cached_f = Ok Sample.cached_f_tree ->
  let out := fst (optimize_cache ast_parse Sample.ast_unparse Sample.def_f) in
  let ls := Str.lines out in
  out = Sample.text
          ["# [OPTIMIZATION: Caching with lru_cache applied]";
           "from functools import lru_cache"; ""; "@lru_cache"; "def f():";
           "    return 1"]
  /\ Str.count_line "from functools import lru_cache" ls = 1
  /\ Str.index_of "from functools import lru_cache" ls = Some 1
  /\ Str.index_of "@lru_cache" ls = Some 3
  /\ Str.index_of "def f():" ls = Some 4
  /\ DecoratorAdder "lru_cache" Sample.cached_f_tree
     = [ImportFrom "functools" [("lru_cache", None)];
        FunctionDef "f" [] [Return (Some Sample.one)] [Name "lru_cache"]].
Proof.
  intro Hp.
  assert (E : optimize_cache ast_parse Sample.ast_unparse Sample.def_f
              = (Sample.text
                   ["# [OPTIMIZATION: Caching with lru_cache applied]";
                    "from functools import lru_cache"; ""; "@lru_cache";
                    "def f():"; "    return 1"], [])).
  { unfold optimize_cache.
    change (ensure_import Sample.def_f "from functools import lru_cache")
      with Sample.cached_f.
    unfold add_decorator_to_functions. rewrite Hp. reflexivity. }
  cbv zeta. rewrite E. repeat split.
Qed.

(** C9 on the sample runtime. *)
Lemma cache_scenario_witness :
  fst (optimize_cache Sample.ast_parse Sample.ast_unparse Sample.def_f)
  = Sample.text
      ["# [OPTIMIZATION: Caching with lru_cache applied]";
       "from functools import lru_cache"; ""; "@lru_cache"; "def f():";
       "    return 1"]
  /\ Str.count_line "from functools import lru_cache"
       (Str.lines
          (fst (optimize_cache Sample.ast_parse Sample.ast_unparse
                               Sample.def_f))) = 1.
Proof.
  destruct (cache_scenario Sample.ast_parse eq_refl) as (Hout & Hcount & _).
  split; [exact Hout | exact Hcount].
Defined.

(** * Further properties of the transformers *)

(** ** Substring tests *)

Section ContainsFacts.

Lemma prefix_append (s rest : string) : String.prefix s (s ++ rest) = true.
Proof.
  induction s as [|c s IH]; simpl.
  - destruct rest; reflexivity.
  - destruct (ascii_dec c c) as [_|N]; [exact IH | now elim N].
Qed.

Lemma contains_of_prefix (sub s : string) :
  String.prefix sub s = true -> Str.contains sub s = true.
Proof. destruct s; simpl; intros ->; reflexivity. Qed.

Lemma contains_append_l (sub pre s : string) :
  Str.contains sub s = true -> Str.contains sub (pre ++ s) = true.
Proof.
  intro H. induction pre as [|c pre IH]; [exact H|].
  change (Str.contains sub (String c pre ++ s))
    with (if String.prefix sub (String c (pre ++ s)) then true
          else Str.contains sub (pre ++ s)).
  destruct (String.prefix sub (String c (pre ++ s))); [reflexivity | exact IH].
Qed.

Lemma contains_inside (sub pre post : string) :
  Str.contains sub (pre ++ sub ++ post) = true.
Proof.
  apply contains_append_l, contains_of_prefix, prefix_append.
Qed.

(** Splitting into lines distributes over a line feed between two texts. *)
Lemma lines_from_append (a b : string) :
  forall cur,
    Str.lines_from cur (a ++ Str.nl ++ b)
    = (Str.lines_from cur a ++ Str.lines b)%list.
Proof.
  induction a as [|c a IH]; intro cur; simpl; [reflexivity|].
  destruct (Ascii.eqb c (ascii_of_nat 10)).
  - simpl. f_equal. apply IH.
  - apply IH.
Qed.

Lemma lines_append (a b : string) :
  Str.lines (a ++ Str.nl ++ b) = (Str.lines a ++ Str.lines b)%list.
Proof. apply lines_from_append. Qed.

Lemma count_line_app (x : string) (l1 l2 : list string) :
  Str.count_line x (l1 ++ l2)
  = Str.count_line x l1 + Str.count_line x l2.
Proof.
  unfold Str.count_line. now rewrite filter_app, length_app.
Qed.

End ContainsFacts.

(** ** [ensure_import] and the text transformers *)

Section TextFacts.

Variable ast_parse : string -> result module.
Variable ast_unparse : module -> result string.

(** X1: adding an import line twice adds it once. *)
Theorem ensure_import_idempotent (code import_line : string) :
  ensure_import (ensure_import code import_line) import_line
  = ensure_import code import_line.
Proof.
  unfold ensure_import.
  destruct (Str.contains import_line code) eqn:E; simpl.
  - now rewrite E.
  - now rewrite (contains_of_prefix _ _ (prefix_append import_line _)).
Qed.

(** X2: the presence test is a substring test: a text that holds the
    import line anywhere, inside a longer line or a comment as well,
    is returned as it is. *)
Theorem ensure_import_present_anywhere (pre post import_line : string) :
  ensure_import (pre ++ import_line ++ post) import_line
  = pre ++ import_line ++ post.
Proof.
  unfold ensure_import. now rewrite contains_inside.
Qed.

(** X3: the text returned always holds the import line. *)
Theorem ensure_import_contains (code import_line : string) :
  Str.contains import_line (ensure_import code import_line) = true.
Proof.
  unfold ensure_import.
  destruct (Str.contains import_line code) eqn:E; simpl.
  - exact E.
  - apply contains_of_prefix, prefix_append.
Qed.

Lemma multiprocessing_has_guard (code : string) :
  Str.contains "if __name__" (optimize_multiprocessing code) = true.
Proof.
  unfold optimize_multiprocessing.
  destruct (Str.contains "if __name__" code) eqn:E; simpl negb; cbv iota.
  - repeat apply contains_append_l. exact E.
  - vm_compute. reflexivity.
Qed.

(** X4: the sample [main] block is synthesised at most once: the output
    of the multiprocessing transformer always holds [if __name__], so a
    second application only adds the note and the banner. *)
Theorem multiprocessing_block_once (code : string) :
  optimize_multiprocessing (optimize_multiprocessing code)
  = "# Note: Please ensure that the multiprocessing block in __main__ is correct."
    ++ Str.nl ++ "# [OPTIMIZATION: Multiprocessing]" ++ Str.nl
    ++ optimize_multiprocessing code.
Proof.
  unfold optimize_multiprocessing at 1.
  now rewrite multiprocessing_has_guard.
Qed.

(** X5: the vectorize transformer tests the banner, not the code, for
    the numpy import, so it prepends the import whatever the code holds:
    the output has one more line [import numpy as np] than the input. *)
Theorem vectorize_import_unconditional (code : string) :
  Str.count_line "import numpy as np" (Str.lines (optimize_vectorize code))
  = S (Str.count_line "import numpy as np" (Str.lines code)).
Proof.
  change (optimize_vectorize code)
    with ("import numpy as np" ++ Str.nl ++
          "# [OPTIMIZATION: Vectorized operations with NumPy]" ++ Str.nl ++
          "" ++ Str.nl ++
          (code ++ Str.nl ++
           "# Note: It is recommended to convert loops into numpy operations for better performance."
           ++ Str.nl ++ "")).
  rewrite !lines_append, !count_line_app.
  generalize (Str.count_line "import numpy as np" (Str.lines code)).
  intro n. vm_compute. exact (f_equal S (eq_sym (plus_n_O n))).
Qed.

(** X6: when the text does not parse, methods 3 and 5 still return a
    result: the banner, the text with its import line, and the
    diagnostic. *)
Theorem tree_methods_degrade (code e3 e5 : string) :
  ast_parse (ensure_import code "from numba import njit") = Raised e3 ->
  ast_parse (ensure_import code "from functools import lru_cache")
  = Raised e5 ->
  apply_method ast_parse ast_unparse "3" code
  = Some ("# [OPTIMIZATION: Numba JIT applied]" ++ Str.nl
            ++ ensure_import code "from numba import njit",
          ["Error parsing AST: " ++ e3])
  /\ apply_method ast_parse ast_unparse "5" code
     = Some ("# [OPTIMIZATION: Caching with lru_cache applied]" ++ Str.nl
               ++ ensure_import code "from functools import lru_cache",
             ["Error parsing AST: " ++ e5]).
Proof.
  intros H3 H5. split.
  - change (apply_method ast_parse ast_unparse "3" code)
      with (Some (optimize_numba ast_parse ast_unparse code)).
    unfold optimize_numba, add_decorator_to_functions. now rewrite H3.
  - change (apply_method ast_parse ast_unparse "5" code)
      with (Some (optimize_cache ast_parse ast_unparse code)).
    unfold optimize_cache, add_decorator_to_functions. now rewrite H5.
Qed.

(** X7: the chain produces a result exactly on the six identifiers,
    compared as strings: [ 1] or [01] select nothing. *)
Theorem apply_method_defined_iff (method_choice code : string) :
  apply_method ast_parse ast_unparse method_choice code = None
  <-> ~ In method_choice Spec.methods.
Proof.
  split; [|apply apply_method_invalid].
  intros H Hin. revert H. unfold apply_method.
  simpl in Hin.
  destruct Hin as [<-|[<-|[<-|[<-|[<-|[<-|[]]]]]]];
    cbn [String.eqb Ascii.eqb Bool.eqb]; discriminate.
Qed.

(** X8: methods 1, 2, 4 and 6 never call the parser or the printer and
    print no diagnostic: their result is the same under every runtime. *)
Theorem text_methods_ignore_parser (method_choice code : string) :
  In method_choice ["1"; "2"; "4"; "6"] ->
  exists out,
    forall (parse : string -> result module)
           (unparse : module -> result string),
      apply_method parse unparse method_choice code = Some (out, []).
Proof.
  simpl. intros [<-|[<-|[<-|[<-|[]]]]]; eexists; intros; reflexivity.
Qed.

(** X9: a diagnostic means no change: whenever the transformer prints
    something, the text it returns is its input. *)
Theorem diagnostic_means_unchanged (code D : string) :
  snd (add_decorator_to_functions ast_parse ast_unparse code D) <> [] ->
  fst (add_decorator_to_functions ast_parse ast_unparse code D) = code.
Proof.
  unfold add_decorator_to_functions.
  destruct (ast_parse code) as [t|e]; [|reflexivity].
  destruct (ast_unparse (DecoratorAdder D t)) as [s|e]; [|reflexivity].
  simpl. intro H. now elim H.
Qed.

End TextFacts.

(** ** The tree rewrite, node by node *)

Section TreeFacts.

Variable ast_parse : string -> result module.
Variable ast_unparse : module -> result string.

(** A node of the rewritten tree is the rewrite of the node that was at
    the same place. *)
Lemma node_at_rewritten (D : string) (t : module) (p : list nat) (s' : stmt) :
  node_at p (DecoratorAdder D t) = Some s' ->
  exists s, node_at p t = Some s /\ s' = visit D s.
Proof.
  unfold DecoratorAdder. rewrite node_at_visit.
  destruct (node_at p t) as [s|]; simpl; intro H; [|discriminate H].
  injection H as <-. now exists s.
Qed.

(** X10: after the rewrite every function definition of the tree, at
    any nesting level, carries the bare name. *)
Theorem every_def_decorated (D : string) (t : module) (p : list nat)
        (n : string) (a : list string) (b : list stmt) (decs : list expr) :
  node_at p (DecoratorAdder D t) = Some (FunctionDef n a b decs) ->
  In (Name D) decs.
Proof.
  intro H. apply node_at_rewritten in H. destruct H as [s [_ E]].
  destruct s; simpl in E; try discriminate E.
  injection E as _ _ _ ->.
  apply has_decorator_spec, has_decorator_insert.
Qed.

(** X11: a function definition that already carries the bare name keeps
    its decorator list as it is: the name is not inserted a second time. *)
Theorem decorated_def_kept (D : string) (t : module) (p : list nat)
        (n : string) (a : list string) (b : list stmt) (decs : list expr) :
  node_at p t = Some (FunctionDef n a b decs) ->
  In (Name D) decs ->
  node_at p (DecoratorAdder D t)
  = Some (FunctionDef n a (List.map (visit D) b) decs).
Proof.
  intros Hn Hin. unfold DecoratorAdder. rewrite node_at_visit, Hn. simpl.
  unfold insert_decorator.
  now rewrite (proj2 (has_decorator_spec D decs) Hin).
Qed.

(** X12: a class definition is never given the decorator: it keeps its
    decorator list, and its body is visited, so its methods are
    decorated. *)
Theorem class_def_not_decorated (D : string) (t : module) (p : list nat)
        (n : string) (bs : list expr) (b : list stmt) (decs : list expr) :
  node_at p t = Some (ClassDef n bs b decs) ->
  node_at p (DecoratorAdder D t)
  = Some (ClassDef n bs (List.map (visit D) b) decs).
Proof.
  intro Hn. unfold DecoratorAdder. now rewrite node_at_visit, Hn.
Qed.

(** X13: the rewrite keeps the shape of the tree: the same paths lead to
    a statement before and after, and the module has as many statements. *)
Theorem rewrite_keeps_shape (D : string) (t : module) (p : list nat) :
  List.length (DecoratorAdder D t) = List.length t
  /\ (node_at p (DecoratorAdder D t) = None <-> node_at p t = None).
Proof.
  unfold DecoratorAdder. split; [apply length_map|].
  rewrite node_at_visit.
  destruct (node_at p t); simpl; split; intro H;
    try discriminate H; reflexivity.
Qed.

(** X14: transforming twice gives the text of transforming once for
    every text, parseable or not and whatever the form of its
    decorators, when the runtime reads back what it wrote. *)
Theorem transform_idempotent_any_text (S D : string) :
  (forall t s, ast_parse S = Ok t ->
               ast_unparse (DecoratorAdder D t) = Ok s ->
               ast_parse s = Ok (DecoratorAdder D t)) ->
  fst (add_decorator_to_functions ast_parse ast_unparse
         (fst (add_decorator_to_functions ast_parse ast_unparse S D)) D)
  = fst (add_decorator_to_functions ast_parse ast_unparse S D).
Proof.
  intro Hrt.
  destruct (ast_parse S) as [t|e] eqn:Hp.
  - apply transform_twice with t; [exact Hp|].
    intros s Hu. now apply Hrt.
  - unfold add_decorator_to_functions. rewrite Hp. simpl. now rewrite Hp.
Qed.

End TreeFacts.

(** ** The driver, path by path *)

Section DriverPaths.

Import Driver.

Variable FS : Type.
Variable isfile : FS -> string -> bool.
Variable read_file : FS -> string -> result string.
Variable write_file : FS -> string -> string -> result unit * FS.
Variable run_python : FS -> string -> child * FS.
Variable splitext : string -> string * string.
Variable strip : string -> string.
Variable ast_parse : string -> result module.
Variable ast_unparse : module -> result string.

Local Notation "'resolve'" := (resolve_inputs FS strip).
Local Notation "'run_main'" :=
  (main FS isfile read_file write_file run_python splitext strip
        ast_parse ast_unparse).

(** Unfolds [main] after its inputs are resolved. *)
Ltac enter Hr :=
  unfold main, bind at 1; rewrite Hr;
  unfold process, bind, os_path_isfile, open_read, open_write,
    subprocess_run, print, print_all, sys_exit, ret;
  cbv beta iota.

(** Reduces the step just taken and moves to the initial files. *)
Ltac norm Hf :=
  cbn [negb files stdin stdout]; cbv beta iota; rewrite ?Hf.

(** X15: a file name that is no file ends the run with status 1 and
    the message, whatever the method; the files are untouched. *)
Theorem missing_file_rejected (argv : list string) (w w1 : world FS)
        (filename method_choice : string) (run_flag : bool) :
  resolve (List.tl argv) w = (Done (filename, method_choice, run_flag), w1) ->
  isfile (files w) filename = false ->
  run_main argv w
  = (Exit 1,
     World (files w) (stdin w1)
           (stdout w1 ++ ["Error: The specified file does not exist."])%list).
Proof.
  intros Hr Hi.
  pose proof (resolve_inputs_files _ _ _ _ _ _ Hr) as Hf.
  enter Hr. norm Hf. rewrite Hi. norm Hf. reflexivity.
Qed.

(** X16: a file that cannot be read ends the run with status 1 and the
    message with the exception; the files are untouched. *)
Theorem read_error_rejected (argv : list string) (w w1 : world FS)
        (filename method_choice e : string) (run_flag : bool) :
  resolve (List.tl argv) w = (Done (filename, method_choice, run_flag), w1) ->
  isfile (files w) filename = true ->
  read_file (files w) filename = Raised e ->
  run_main argv w
  = (Exit 1,
     World (files w) (stdin w1)
           (List.app (stdout w1) ["Error reading file: " ++ e])).
Proof.
  intros Hr Hi Hrd.
  pose proof (resolve_inputs_files _ _ _ _ _ _ Hr) as Hf.
  enter Hr. norm Hf. rewrite Hi. norm Hf. rewrite Hrd. norm Hf. reflexivity.
Qed.

(** The run that reads, transforms and writes, without the run flag. *)
Lemma run_saved (argv : list string) (w w1 : world FS)
      (filename method_choice code out base ext : string)
      (printed : list string) (fs' : FS) :
  resolve (List.tl argv) w = (Done (filename, method_choice, false), w1) ->
  isfile (files w) filename = true ->
  read_file (files w) filename = Ok code ->
  apply_method ast_parse ast_unparse method_choice code
  = Some (out, printed) ->
  splitext filename = (base, ext) ->
  write_file (files w) (base ++ "_FAST" ++ ext) out = (Ok tt, fs') ->
  run_main argv w
  = (Done tt,
     World fs' (stdin w1)
           (List.app (List.app (stdout w1) printed)
              ["Optimized file saved as '" ++ (base ++ "_FAST" ++ ext)
               ++ "'."])).
Proof.
  intros Hr Hi Hrd Ha Hs Hw.
  pose proof (resolve_inputs_files _ _ _ _ _ _ Hr) as Hf.
  enter Hr. norm Hf. rewrite Hi. norm Hf. rewrite Hrd, Ha. norm Hf.
  rewrite Hs. norm Hf. rewrite Hw. norm Hf. reflexivity.
Qed.

(** X17: without the run flag, once the selected transformer has
    returned its text, the run writes that text once, to the base name
    with [_FAST] before the extension, prints the transformer's
    diagnostics and the saved message, and ends with status 0; no child
    process is started. *)
Theorem saved_next_to_input (argv : list string) (w w1 : world FS)
        (filename method_choice code out base ext : string)
        (printed : list string) (fs' : FS) :
  resolve (List.tl argv) w = (Done (filename, method_choice, false), w1) ->
  isfile (files w) filename = true ->
  read_file (files w) filename = Ok code ->
  apply_method ast_parse ast_unparse method_choice code
  = Some (out, printed) ->
  splitext filename = (base, ext) ->
  write_file (files w) (base ++ "_FAST" ++ ext) out = (Ok tt, fs') ->
  run_main argv w
  = (Done tt,
     World fs' (stdin w1)
           (List.app (List.app (stdout w1) printed)
              ["Optimized file saved as '" ++ (base ++ "_FAST" ++ ext)
               ++ "'."]))
  /\ exit_status (fst (run_main argv w)) = 0.
Proof.
  intros Hr Hi Hrd Ha Hs Hw.
  rewrite (run_saved argv w w1 filename method_choice code out base ext
             printed fs' Hr Hi Hrd Ha Hs Hw).
  split; reflexivity.
Qed.

(** X18: when the output cannot be written the run ends with status 1
    and the message, and with the run flag set the child process is
    still not started. *)
Theorem write_error_rejected (argv : list string) (w w1 : world FS)
        (filename method_choice code out base ext e : string)
        (printed : list string) (run_flag : bool) (fs' : FS) :
  resolve (List.tl argv) w = (Done (filename, method_choice, run_flag), w1) ->
  isfile (files w) filename = true ->
  read_file (files w) filename = Ok code ->
  apply_method ast_parse ast_unparse method_choice code
  = Some (out, printed) ->
  splitext filename = (base, ext) ->
  write_file (files w) (base ++ "_FAST" ++ ext) out = (Raised e, fs') ->
  run_main argv w
  = (Exit 1,
     World fs' (stdin w1)
           (List.app (List.app (stdout w1) printed)
              ["Error saving the optimized file: " ++ e])).
Proof.
  intros Hr Hi Hrd Ha Hs Hw.
  pose proof (resolve_inputs_files _ _ _ _ _ _ Hr) as Hf.
  enter Hr. norm Hf. rewrite Hi. norm Hf. rewrite Hrd, Ha. norm Hf.
  rewrite Hs. norm Hf. rewrite Hw. norm Hf. reflexivity.
Qed.

(** X19: with the run flag the written file is started after the saved
    message; the run ends with status 0 when the child succeeds, with
    status 1 and a message when it fails, and with the exception when
    it could not be started.  The written file stays in each case. *)
Theorem run_flag_executes_output (argv : list string) (w w1 : world FS)
        (filename method_choice code out base ext : string)
        (printed : list string) (fs' fs'' : FS) (c : child) :
  resolve (List.tl argv) w = (Done (filename, method_choice, true), w1) ->
  isfile (files w) filename = true ->
  read_file (files w) filename = Ok code ->
  apply_method ast_parse ast_unparse method_choice code
  = Some (out, printed) ->
  splitext filename = (base, ext) ->
  write_file (files w) (base ++ "_FAST" ++ ext) out = (Ok tt, fs') ->
  run_python fs' (base ++ "_FAST" ++ ext) = (c, fs'') ->
  let shown :=
    List.app
      (List.app (List.app (stdout w1) printed)
         ["Optimized file saved as '" ++ (base ++ "_FAST" ++ ext) ++ "'."])
      ["Executing the optimized file..."] in
  run_main argv w
  = match c with
    | ChildOk => (Done tt, World fs'' (stdin w1) shown)
    | ChildFailed e =>
        (Exit 1,
         World fs'' (stdin w1)
               (List.app shown ["Error running the optimized file: " ++ e]))
    | ChildNotStarted e => (Uncaught e, World fs'' (stdin w1) shown)
    end.
Proof.
  intros Hr Hi Hrd Ha Hs Hw Hc.
  pose proof (resolve_inputs_files _ _ _ _ _ _ Hr) as Hf.
  enter Hr. norm Hf. rewrite Hi. norm Hf. rewrite Hrd, Ha. norm Hf.
  rewrite Hs. norm Hf. rewrite Hw. norm Hf. rewrite Hc.
  destruct c; norm Hf; reflexivity.
Qed.

End DriverPaths.

(** ** The driver's inputs and its output name *)

Section DriverInputs.

Import Driver.

Variable FS : Type.
Variable isfile : FS -> string -> bool.
Variable read_file : FS -> string -> result string.
Variable write_file : FS -> string -> string -> result unit * FS.
Variable run_python : FS -> string -> child * FS.
Variable splitext : string -> string * string.
Variable strip : string -> string.
Variable ast_parse : string -> result module.
Variable ast_unparse : module -> result string.

Local Notation "'resolve'" := (resolve_inputs FS strip).
Local Notation "'run_main'" :=
  (main FS isfile read_file write_file run_python splitext strip
        ast_parse ast_unparse).

Lemma resolve_at_eof (args : list string) (w : world FS) :
  stdin w = [] ->
  nth_error (list_remove "--run" args) 1 = None ->
  exists prompt,
    resolve args w
    = (Uncaught "EOFError",
       World (files w) [] (List.app (stdout w) [prompt])).
Proof.
  intros Hs Hn. destruct args as [|first rest].
  - unfold resolve_inputs, bind, input. rewrite Hs. eexists; reflexivity.
  - unfold resolve_inputs.
    destruct (list_mem "--run" (first :: rest)) eqn:E.
    + destruct (list_remove "--run" (first :: rest)) as [|x [|y l]];
        try discriminate Hn;
        unfold display_menu, bind, input; rewrite Hs; eexists; reflexivity.
    + rewrite (list_remove_absent _ _ E) in Hn.
      destruct rest as [|y l]; try discriminate Hn.
      unfold display_menu, bind, input. rewrite Hs. eexists; reflexivity.
Qed.

(** X20: when a prompt is needed (no argument, or no method among the
    arguments) and the input is at its end, the run ends with the
    uncaught [EOFError] after showing the prompt: status 1, and the
    files are untouched. *)
Theorem eof_at_prompt (argv : list string) (w : world FS) :
  stdin w = [] ->
  nth_error (list_remove "--run" (List.tl argv)) 1 = None ->
  exists prompt,
    run_main argv w
    = (Uncaught "EOFError",
       World (files w) [] (List.app (stdout w) [prompt]))
    /\ exit_status (fst (run_main argv w)) = 1.
Proof.
  intros Hs Hn.
  destruct (resolve_at_eof (List.tl argv) w Hs Hn) as [prompt E].
  exists prompt.
  assert (M : run_main argv w
              = (Uncaught "EOFError",
                 World (files w) [] (List.app (stdout w) [prompt]))).
  { unfold main, bind at 1. now rewrite E. }
  rewrite M. split; reflexivity.
Qed.

(** X21: with no argument both answers are read from the input, in
    this order, each shown its prompt and stripped; the run flag is
    never set, so the output of an interactive run is not executed. *)
Theorem interactive_inputs (w : world FS) (l1 l2 : string)
        (rest : list string) :
  stdin w = l1 :: l2 :: rest ->
  resolve [] w
  = (Done (strip l1, strip l2, false),
     World (files w) rest
           (List.app
              (List.app (stdout w)
                        ["Enter the Python file name to optimize: "])
              [menu])).
Proof.
  intro Hs. unfold resolve_inputs, display_menu, bind, input, ret.
  rewrite Hs. reflexivity.
Qed.


Lemma length_append (a b : string) :
  String.length (a ++ b) = String.length a + String.length b.
Proof.
  induction a as [|c a IH]; simpl; [reflexivity | now rewrite IH].
Qed.

(** X23: the output never replaces the input: when [splitext] splits
    the file name into parts that give it back and the write changes no
    other file than the one it names, then after a run that wrote its
    output the input file reads as it did before. *)
Theorem input_not_overwritten (argv : list string) (w w1 : world FS)
        (filename method_choice code out base ext : string)
        (printed : list string) (fs' : FS) :
  resolve (List.tl argv) w = (Done (filename, method_choice, false), w1) ->
  isfile (files w) filename = true ->
  read_file (files w) filename = Ok code ->
  apply_method ast_parse ast_unparse method_choice code
  = Some (out, printed) ->
  splitext filename = (base, ext) ->
  base ++ ext = filename ->
  write_file (files w) (base ++ "_FAST" ++ ext) out = (Ok tt, fs') ->
  (forall path, path <> base ++ "_FAST" ++ ext ->
                read_file fs' path = read_file (files w) path) ->
  read_file (files (snd (run_main argv w))) filename = Ok code.
Proof.
  intros Hr Hi Hrd Ha Hs Hc Hw Hframe.
  rewrite (run_saved FS isfile read_file write_file run_python
             splitext strip ast_parse ast_unparse argv w w1 filename
             method_choice code out base ext printed fs'
             Hr Hi Hrd Ha Hs Hw).
  cbn [snd files]. rewrite Hframe; [exact Hrd|].
  intro E. rewrite <- Hc in E.
  apply (f_equal String.length) in E.
  rewrite !length_append in E. simpl in E. lia.
Qed.

End DriverInputs.

(** ** The further properties on the sample runtime *)

Lemma tree_methods_degrade_witness :
  apply_method Sample.ast_parse Sample.ast_unparse "3" Sample.broken
  = Some ("# [OPTIMIZATION: Numba JIT applied]" ++ Str.nl
            ++ ensure_import Sample.broken "from numba import njit",
          ["Error parsing AST: " ++ "invalid syntax"])
  /\ apply_method Sample.ast_parse Sample.ast_unparse "5" Sample.broken
     = Some ("# [OPTIMIZATION: Caching with lru_cache applied]" ++ Str.nl
               ++ ensure_import Sample.broken
                    "from functools import lru_cache",
             ["Error parsing AST: " ++ "invalid syntax"]).
Proof.
  apply (tree_methods_degrade Sample.ast_parse Sample.ast_unparse
           Sample.broken "invalid syntax" "invalid syntax");
    reflexivity.
Defined.

Lemma text_methods_ignore_parser_witness :
  exists out,
    forall (parse : string -> result module)
           (unparse : module -> result string),
      apply_method parse unparse "2" Sample.def_f = Some (out, []).
Proof.
  apply (text_methods_ignore_parser "2" Sample.def_f).
  simpl. tauto.
Defined.

Lemma diagnostic_means_unchanged_witness :
  fst (Sample.add_decorator Sample.broken "njit") = Sample.broken.
Proof.
  apply (diagnostic_means_unchanged Sample.ast_parse Sample.ast_unparse
           Sample.broken "njit").
  vm_compute. discriminate.
Defined.

Lemma every_def_decorated_witness :
  In (Name "njit") [Name "njit"; Name "trace"].
Proof.
  apply (every_def_decorated "njit" Sample.traced_f_tree [0] "f" []
           [Return (Some Sample.one)]).
  reflexivity.
Defined.

Lemma decorated_def_kept_witness :
  node_at [1] (DecoratorAdder "lru_cache" Sample.cached_f_out_tree)
  = Some (FunctionDef "f" []
            (List.map (visit "lru_cache") [Return (Some Sample.one)])
            [Name "lru_cache"]).
Proof.
  apply (decorated_def_kept "lru_cache" Sample.cached_f_out_tree [1]).
  - reflexivity.
  - simpl. tauto.
Defined.

Lemma class_def_not_decorated_witness :
  node_at [0]
    (DecoratorAdder "njit"
       [ClassDef "C" [Name "Base"] [FunctionDef "m" ["self"] [Pass] []]
                 [Name "dataclass"]])
  = Some (ClassDef "C" [Name "Base"]
            (List.map (visit "njit") [FunctionDef "m" ["self"] [Pass] []])
            [Name "dataclass"]).
Proof.
  apply (class_def_not_decorated "njit"
           [ClassDef "C" [Name "Base"] [FunctionDef "m" ["self"] [Pass] []]
                     [Name "dataclass"]] [0]).
  reflexivity.
Defined.

Lemma transform_idempotent_any_text_witness :
  fst (Sample.add_decorator
         (fst (Sample.add_decorator Sample.cached_f "lru_cache"))
         "lru_cache")
  = fst (Sample.add_decorator Sample.cached_f "lru_cache").
Proof.
  apply (transform_idempotent_any_text Sample.ast_parse Sample.ast_unparse
           Sample.cached_f "lru_cache").
  intros t s Hp Hu. vm_compute in Hp. injection Hp as <-.
  vm_compute in Hu. injection Hu as <-. reflexivity.
Defined.

Lemma missing_file_rejected_witness :
  Sample.main ["FastPython.py"; "absent.py"; "1"] (Sample.fresh [])
  = (Driver.Exit 1,
     Driver.World Sample.disk []
       (List.app [] ["Error: The specified file does not exist."])).
Proof.
  apply (missing_file_rejected Sample.FS Sample.isfile Sample.read_file
           Sample.write_file Sample.run_python Sample.splitext Str.strip
           Sample.ast_parse Sample.ast_unparse
           ["FastPython.py"; "absent.py"; "1"] (Sample.fresh [])
           (Sample.fresh []) "absent.py" "1" false);
    reflexivity.
Defined.

Lemma read_error_rejected_witness :
  Driver.main Sample.FS Sample.isfile
    (fun _ _ => Raised "[Errno 13] Permission denied")
    Sample.write_file Sample.run_python Sample.splitext Str.strip
    Sample.ast_parse Sample.ast_unparse
    ["FastPython.py"; "prog.py"; "1"] (Sample.fresh [])
  = (Driver.Exit 1,
     Driver.World Sample.disk []
       (List.app [] ["Error reading file: " ++ "[Errno 13] Permission denied"])).
Proof.
  apply (read_error_rejected Sample.FS Sample.isfile
           (fun _ _ => Raised "[Errno 13] Permission denied")
           Sample.write_file Sample.run_python Sample.splitext Str.strip
           Sample.ast_parse Sample.ast_unparse
           ["FastPython.py"; "prog.py"; "1"] (Sample.fresh [])
           (Sample.fresh []) "prog.py" "1"
           "[Errno 13] Permission denied" false);
    reflexivity.
Defined.

Lemma saved_next_to_input_witness :
  Sample.main ["FastPython.py"; "prog.py"; "2"] (Sample.fresh [])
  = (Driver.Done tt,
     Driver.World
       (("prog" ++ "_FAST" ++ ".py", optimize_translation Sample.def_f)
          :: Sample.disk)
       []
       (List.app (List.app [] [])
          ["Optimized file saved as '" ++ ("prog" ++ "_FAST" ++ ".py")
           ++ "'."]))
  /\ Driver.exit_status
       (fst (Sample.main ["FastPython.py"; "prog.py"; "2"]
                         (Sample.fresh []))) = 0.
Proof.
  apply (saved_next_to_input Sample.FS Sample.isfile Sample.read_file
           Sample.write_file Sample.run_python Sample.splitext Str.strip
           Sample.ast_parse Sample.ast_unparse
           ["FastPython.py"; "prog.py"; "2"] (Sample.fresh [])
           (Sample.fresh []) "prog.py" "2" Sample.def_f
           (optimize_translation Sample.def_f) "prog" ".py" []);
    reflexivity.
Defined.

Lemma write_error_rejected_witness :
  Driver.main Sample.FS Sample.isfile Sample.read_file
    (fun fs _ _ => (Raised "[Errno 28] No space left on device", fs))
    Sample.run_python Sample.splitext Str.strip
    Sample.ast_parse Sample.ast_unparse
    ["FastPython.py"; "prog.py"; "2"; "--run"] (Sample.fresh [])
  = (Driver.Exit 1,
     Driver.World Sample.disk []
       (List.app (List.app [] [])
          ["Error saving the optimized file: "
           ++ "[Errno 28] No space left on device"])).
Proof.
  apply (write_error_rejected Sample.FS Sample.isfile Sample.read_file
           (fun fs _ _ => (Raised "[Errno 28] No space left on device", fs))
           Sample.run_python Sample.splitext Str.strip
           Sample.ast_parse Sample.ast_unparse
           ["FastPython.py"; "prog.py"; "2"; "--run"] (Sample.fresh [])
           (Sample.fresh []) "prog.py" "2" Sample.def_f
           (optimize_translation Sample.def_f) "prog" ".py"
           "[Errno 28] No space left on device" [] true);
    reflexivity.
Defined.

Lemma run_flag_executes_output_witness :
  Driver.main Sample.FS Sample.isfile Sample.read_file Sample.write_file
    (fun fs _ => (Driver.ChildFailed "returned non-zero exit status 1", fs))
    Sample.splitext Str.strip Sample.ast_parse Sample.ast_unparse
    ["FastPython.py"; "prog.py"; "2"; "--run"] (Sample.fresh [])
  = (Driver.Exit 1,
     Driver.World
       (("prog" ++ "_FAST" ++ ".py", optimize_translation Sample.def_f)
          :: Sample.disk)
       []
       (List.app
          (List.app
             (List.app (List.app [] [])
                ["Optimized file saved as '" ++ ("prog" ++ "_FAST" ++ ".py")
                 ++ "'."])
             ["Executing the optimized file..."])
          ["Error running the optimized file: "
           ++ "returned non-zero exit status 1"])).
Proof.
  apply (run_flag_executes_output Sample.FS Sample.isfile Sample.read_file
           Sample.write_file
           (fun fs _ =>
              (Driver.ChildFailed "returned non-zero exit status 1", fs))
           Sample.splitext Str.strip Sample.ast_parse Sample.ast_unparse
           ["FastPython.py"; "prog.py"; "2"; "--run"] (Sample.fresh [])
           (Sample.fresh []) "prog.py" "2" Sample.def_f
           (optimize_translation Sample.def_f) "prog" ".py" []
           (("prog" ++ "_FAST" ++ ".py", optimize_translation Sample.def_f)
              :: Sample.disk)
           (("prog" ++ "_FAST" ++ ".py", optimize_translation Sample.def_f)
              :: Sample.disk)
           (Driver.ChildFailed "returned non-zero exit status 1"));
    reflexivity.
Defined.

Lemma eof_at_prompt_witness :
  exists prompt,
    Sample.main ["FastPython.py"; "prog.py"; "--run"] (Sample.fresh [])
    = (Driver.Uncaught "EOFError",
       Driver.World Sample.disk [] (List.app [] [prompt]))
    /\ Driver.exit_status
         (fst (Sample.main ["FastPython.py"; "prog.py"; "--run"]
                           (Sample.fresh []))) = 1.
Proof.
  apply (eof_at_prompt Sample.FS Sample.isfile Sample.read_file
           Sample.write_file Sample.run_python Sample.splitext Str.strip
           Sample.ast_parse Sample.ast_unparse
           ["FastPython.py"; "prog.py"; "--run"] (Sample.fresh []));
    reflexivity.
Defined.

Lemma interactive_inputs_witness :
  Driver.resolve_inputs Sample.FS Str.strip []
    (Sample.fresh [" prog.py "; " 2 "; "left"])
  = (Driver.Done (Str.strip " prog.py ", Str.strip " 2 ", false),
     Driver.World Sample.disk ["left"]
       (List.app
          (List.app [] ["Enter the Python file name to optimize: "])
          [Driver.menu])).
Proof.
  apply (interactive_inputs Sample.FS Str.strip
           (Sample.fresh [" prog.py "; " 2 "; "left"])).
  reflexivity.
Defined.

Lemma input_not_overwritten_witness :
  Sample.read_file
    (Driver.files
       (snd (Sample.main ["FastPython.py"; "prog.py"; "2"]
                         (Sample.fresh []))))
    "prog.py"
  = Ok Sample.def_f.
Proof.
  apply (input_not_overwritten Sample.FS Sample.isfile Sample.read_file
           Sample.write_file Sample.run_python Sample.splitext Str.strip
           Sample.ast_parse Sample.ast_unparse
           ["FastPython.py"; "prog.py"; "2"] (Sample.fresh [])
           (Sample.fresh []) "prog.py" "2" Sample.def_f
           (optimize_translation Sample.def_f) "prog" ".py" []
           (("prog" ++ "_FAST" ++ ".py", optimize_translation Sample.def_f)
              :: Sample.disk));
    try reflexivity.
  intros path Hne. unfold Sample.read_file.
  change (Sample.lookup
            (("prog" ++ "_FAST" ++ ".py", optimize_translation Sample.def_f)
               :: Sample.disk) path)
    with (if String.eqb ("prog" ++ "_FAST" ++ ".py") path
          then Some (optimize_translation Sample.def_f)
          else Sample.lookup Sample.disk path).
  destruct (String.eqb_spec ("prog" ++ "_FAST" ++ ".py") path) as [E|_];
    [now elim Hne | reflexivity].
Defined.
